(** * Collaborative canvas: the server-side session state engine

    A shallow embedding of the server of the collaborative drawing canvas
    ([server/drawing-state.js], [server/rooms.js] and the connection handler
    of the server entry point) together with the properties of its per-room
    operation log, its rooms and its message handlers.

    Conventions of the embedding:
    - a JavaScript object with primitive fields is a finite map from
      property names to values ([JS.obj]); an array is a list whose head is
      index 0, [push] appends at the end, [shift] drops the head and [pop]
      drops the last element;
    - a [Map] is an association list in insertion order with unique keys;
    - [Date.now()] and [uuidv4()] are inputs of the operation that calls
      them ([now], [uuid]);
    - objects that are shared by reference (rooms) live in a store and are
      named by their address;
    - what a handler sends is returned as a trace of [ws.send] calls. *)

From Stdlib Require Import ZArith Lia.
From stdpp Require Import gmap strings list.

Open Scope string_scope.
Open Scope nat_scope.
Open Scope list_scope.
Open Scope stdpp_scope.

(** ** JavaScript values *)

Module JS.

(** Primitive values. Numbers are the integers (JSON text cannot denote
    NaN or an infinity); nested objects and arrays are not values of this
    type. *)
Inductive value : Type :=
| Undefined
| Null
| Bool (b : bool)
| Num (n : Z)
| Str (s : string).

#[global] Instance value_eq_dec : EqDecision value.
Proof. solve_decision. Defined.

(** [ToBoolean]. *)
Definition truthy (v : value) : bool :=
  match v with
  | Undefined | Null => false
  | Bool b => b
  | Num n => negb (n =? 0)%Z
  | Str s => negb (String.eqb s "")
  end.

(** [a === b] on primitives. *)
Definition strict_eq (a b : value) : bool := bool_decide (a = b).

(** [a || b]. *)
Definition or_else (a b : value) : value := if truthy a then a else b.

(** An object with primitive fields. *)
Abbreviation obj := (gmap string value).

(** [o.k]: the value of the property, [undefined] when it is absent. *)
Definition get (o : obj) (k : string) : value := default Undefined (o !! k).

(** [k in o]: the property is present, whatever its value. None of the
    names the server tests is a property of [Object.prototype]. *)
Definition has (k : string) (o : obj) : bool := bool_decide (is_Some (o !! k)).

(** [{...a, ...b}]: the properties of the later spread win. *)
Definition spread (a b : obj) : obj := b ∪ a.

(** [arr.findIndex(p)], [None] standing for [-1]. *)
Fixpoint findIndex {A : Type} (p : A -> bool) (arr : list A) : option nat :=
  match arr with
  | [] => None
  | x :: rest => if p x then Some 0 else S <$> findIndex p rest
  end.

(** [arr.pop()]: the last element and the shortened array. *)
Definition pop {A : Type} (arr : list A) : option (A * list A) :=
  match last arr with
  | Some x => Some (x, removelast arr)
  | None => None
  end.

(** [arr.includes(v)]. *)
Definition includes (arr : list value) (v : value) : bool :=
  existsb (strict_eq v) arr.

(** An object literal [{k1: v1, k2: v2, ...}]: the properties are defined
    from left to right, a repeated name keeps the value written last. *)
Definition literal (props : list (string * value)) : obj :=
  foldl (fun o kv => <[kv.1 := kv.2]> o) ∅ props.

(** How a call ends: with a result or with a thrown error. *)
Inductive completion (A : Type) : Type :=
| Return (a : A)
| Throw (err : string).
Arguments Return {A} a.
Arguments Throw {A} err.

(** Evaluating the identifier [x] in a scope: unbound names throw. *)
Definition ident (scope : obj) (x : string) : completion value :=
  match scope !! x with
  | Some v => Return v
  | None => Throw (String.append "ReferenceError: " (String.append x " is not defined"))
  end.

(** ** [Map] as an association list in insertion order *)

Section Map.
Context {K V : Type} `{EqDecision K}.

Fixpoint Map_get (k : K) (m : list (K * V)) : option V :=
  match m with
  | [] => None
  | (k', v) :: rest => if decide (k' = k) then Some v else Map_get k rest
  end.

Definition Map_has (k : K) (m : list (K * V)) : bool :=
  bool_decide (is_Some (Map_get k m)).

(** [m.set(k, v)]: an existing key keeps its position. *)
Fixpoint Map_set (k : K) (v : V) (m : list (K * V)) : list (K * V) :=
  match m with
  | [] => [(k, v)]
  | (k', v') :: rest =>
      if decide (k' = k) then (k, v) :: rest else (k', v') :: Map_set k v rest
  end.

Definition Map_delete (k : K) (m : list (K * V)) : list (K * V) :=
  filter (fun kv => kv.1 <> k) m.

Definition Map_keys (m : list (K * V)) : list K := m.*1.
End Map.

End JS.

Import JS.

(** ** [server/drawing-state.js] *)

Module DrawingState.

Record t : Type := mk {
  drawingHistory : list obj;
  operationHistory : list obj;
  operationStack : list obj;
  redoStack : list obj;
  maxHistorySize : nat;
  createdAt : Z
}.

#[global] Instance t_eq_dec : EqDecision t.
Proof. solve_decision. Defined.

(** [constructor()]. *)
Definition new (now : Z) : t :=
  {| drawingHistory := []; operationHistory := []; operationStack := [];
     redoStack := []; maxHistorySize := 500; createdAt := now |}.

Definition requiredBaseFields : list string := ["type"; "userId"; "timestamp"].
Definition validTypes : list value := [Str "DRAW"; Str "ERASE"; Str "CLEAR_CANVAS"].
Definition requiredDrawFields : list string := ["x0"; "y0"; "x1"; "y1"; "color"; "size"].
Definition requiredEraseFields : list string := ["x0"; "y0"; "x1"; "y1"; "size"].

(** The loop [for (const field of fields) if (!(field in operation)) return false]. *)
Definition has_fields (fields : list string) (operation : obj) : bool :=
  forallb (fun field => has field operation) fields.

Definition validateOperation (operation : obj) : bool :=
  if negb (has_fields requiredBaseFields operation) then false
  else if negb (includes validTypes (get operation "type")) then false
  else if strict_eq (get operation "type") (Str "DRAW")
          && negb (has_fields requiredDrawFields operation) then false
  else if strict_eq (get operation "type") (Str "ERASE")
          && negb (has_fields requiredEraseFields operation) then false
  else true.

(** [{...operation, id: operation.operationId || uuidv4(), addedAt: Date.now()}]. *)
Definition enrich (uuid : string) (now : Z) (operation : obj) : obj :=
  <["addedAt" := Num now]>
    (<["id" := or_else (get operation "operationId") (Str uuid)]> operation).

Definition addOperation (uuid : string) (now : Z) (operation : obj) (st : t)
  : t * bool :=
  if negb (validateOperation operation) then (st, false)
  else
    let enrichedOp := enrich uuid now operation in
    let pushed := drawingHistory st ++ [enrichedOp] in
    let trimmed :=
      if maxHistorySize st <? length pushed then tail pushed else pushed in
    ({| drawingHistory := trimmed;
        operationHistory := operationHistory st;
        operationStack := operationStack st ++ [operation];
        redoStack := [];
        maxHistorySize := maxHistorySize st;
        createdAt := createdAt st |}, true).

(** The audit record [{type: 'UNDO', ...undoOp, removedOperationId, timestamp}]. *)
Definition undoRecord (now : Z) (undoOp : obj) : obj :=
  <["timestamp" := Num now]>
    (<["removedOperationId" := get undoOp "operationId"]>
       (spread {["type" := Str "UNDO"]} undoOp)).

Definition recordUndo (now : Z) (undoOp : obj) (st : t) : t * bool :=
  match findIndex (fun op => strict_eq (get op "id") (get undoOp "operationId"))
                  (drawingHistory st) with
  | None => (st, false)
  | Some operationIndex =>
      (* splice(operationIndex, 1)[0]; the index found is always in range *)
      match drawingHistory st !! operationIndex with
      | None => (st, false)
      | Some removedOperation =>
          ({| drawingHistory := delete operationIndex (drawingHistory st);
              operationHistory := operationHistory st ++ [undoRecord now undoOp];
              operationStack := operationStack st;
              redoStack := redoStack st ++ [removedOperation];
              maxHistorySize := maxHistorySize st;
              createdAt := createdAt st |}, true)
      end
  end.

(** The audit record [{type: 'REDO', ...redoOp, readdedOperationId, timestamp}]. *)
Definition redoRecord (now : Z) (redoOp operation : obj) : obj :=
  <["timestamp" := Num now]>
    (<["readdedOperationId" := get operation "id"]>
       (spread {["type" := Str "REDO"]} redoOp)).

Definition recordRedo (now : Z) (redoOp : obj) (st : t) : t * bool :=
  match pop (redoStack st) with
  | None => (st, false)
  | Some (operation, rest) =>
      ({| drawingHistory := drawingHistory st ++ [operation];
          operationHistory := operationHistory st ++ [redoRecord now redoOp operation];
          operationStack := operationStack st;
          redoStack := rest;
          maxHistorySize := maxHistorySize st;
          createdAt := createdAt st |}, true)
  end.

(** [getHistory()] and [getOperationHistory()]: copies of the arrays. *)
Definition getHistory (st : t) : list obj := drawingHistory st.
Definition getOperationHistory (st : t) : list obj := operationHistory st.

Definition clear (st : t) : t :=
  {| drawingHistory := []; operationHistory := []; operationStack := [];
     redoStack := []; maxHistorySize := maxHistorySize st;
     createdAt := createdAt st |}.

(** [getUserOperations(userId)]. *)
Definition getUserOperations (userId : value) (st : t) : list obj :=
  filter (fun op => get op "userId" = userId) (drawingHistory st).

(** What [export()] returns, without its [stats] (diagnostics, one of
    them a fractional size in kilobytes). *)
Record Exported : Type := mkExported {
  ex_drawingHistory : list obj;
  ex_operationHistory : list obj;
  exportedAt : Z
}.

Definition export (now : Z) (st : t) : Exported :=
  {| ex_drawingHistory := getHistory st;
     ex_operationHistory := getOperationHistory st;
     exportedAt := now |}.

(** The two properties [import(data)] reads: each is an array of
    operations ([Some]), or is missing, falsy or not an array ([None]). *)
Record ImportData : Type := mkImportData {
  im_drawingHistory : option (list obj);
  im_operationHistory : option (list obj)
}.

Definition importable (exported : Exported) : ImportData :=
  {| im_drawingHistory := Some (ex_drawingHistory exported);
     im_operationHistory := Some (ex_operationHistory exported) |}.

(** [import(data)]. *)
Definition import (data : ImportData) (st : t) : t :=
  {| drawingHistory := default (drawingHistory st) (im_drawingHistory data);
     operationHistory := default (operationHistory st) (im_operationHistory data);
     operationStack := operationStack st;
     redoStack := redoStack st;
     maxHistorySize := maxHistorySize st;
     createdAt := createdAt st |}.

(** [arr.slice(-n)]: the last [n] elements; [slice(-0)] is [slice(0)],
    the whole array. *)
Definition slice_last {A : Type} (n : nat) (arr : list A) : list A :=
  if n =? 0 then arr else drop (length arr - n) arr.

(** [Math.floor(this.maxHistorySize * 0.7)], as the integer quotient of
    7n by 10. This is the value of the floating-point expression for the
    size the constructor sets, 500: the double nearest to 0.7 lies
    0.4 * 2^-53 below it, so the exact product lies 200 * 2^-53 below 350,
    less than half the spacing 2^-44 of the doubles there, and rounds to
    350. It is not its value for every size (90 * 0.7 is a double below
    63); the properties of [compress] are stated for size 500. *)
Definition compressTarget (st : t) : nat := (maxHistorySize st * 7) / 10.

Record CompressReport : Type := mkCompressReport {
  originalSize : nat;
  newSize : nat;
  operationsRemoved : nat
}.

(** [compress()]. *)
Definition compress (st : t) : t * CompressReport :=
  let originalSize := length (drawingHistory st) in
  let maxSize := compressTarget st in
  let kept :=
    if maxSize <? length (drawingHistory st)
    then slice_last maxSize (drawingHistory st) else drawingHistory st in
  let newSize := length kept in
  ({| drawingHistory := kept;
      operationHistory := operationHistory st;
      operationStack := operationStack st;
      redoStack := redoStack st;
      maxHistorySize := maxHistorySize st;
      createdAt := createdAt st |},
   {| originalSize := originalSize; newSize := newSize;
      operationsRemoved := originalSize - newSize |}).

End DrawingState.

(** ** [server/rooms.js] *)

(** The identity of a connection object; its [readyState] and whether a
    [send] on it throws belong to the network, not to the server. *)
Definition WebSocket : Type := nat.

Record Net : Type := mkNet {
  readyState : WebSocket -> Z;
  sendThrows : WebSocket -> bool
}.

Definition USER_COLORS : list string :=
  ["#FF6B6B"; "#4ECDC4"; "#45B7D1"; "#FFA07A";
   "#98D8C8"; "#F7DC6F"; "#BB8FCE"; "#85C1E2";
   "#F8B88B"; "#A8D8EA"; "#AA96DA"; "#FCBAD3"].

Module ClientInfo.
Record t : Type := mk {
  userId : value;
  username : value;
  color : value;
  joinedAt : Z;
  lastActivityAt : Z;
  isActive : bool
}.

#[global] Instance t_eq_dec : EqDecision t.
Proof. solve_decision. Defined.
End ClientInfo.

(** An entry of [getActiveUsers()]. *)
Record ActiveUser : Type := mkActiveUser {
  au_userId : value;
  au_username : value;
  au_color : value;
  au_joinedAt : Z
}.

#[global] Instance ActiveUser_eq_dec : EqDecision ActiveUser.
Proof. solve_decision. Defined.

(** What the server serializes and sends. [Flat] is a record of primitive
    fields (DRAW, ERASE, UNDO, REDO, CLEAR_CANVAS, CURSOR_MOVE); the
    [roomStats] of LOAD_HISTORY are diagnostics and are left out. *)
Inductive message : Type :=
| Flat (fields : obj)
| LOAD_HISTORY (drawingHistory operationHistory : list obj) (userInfo : ClientInfo.t)
| USER_JOINED (users : list ActiveUser) (clientCount : nat)
| USER_LEFT (users : list ActiveUser) (clientCount : nat)
| ERROR (text : string).

#[global] Instance message_eq_dec : EqDecision message.
Proof. solve_decision. Defined.

(** One call of [ws.send(message)]: it returned, or it threw. *)
Inductive event : Type :=
| Sent (to : WebSocket) (data : message)
| SendFailed (to : WebSocket) (data : message).

#[global] Instance event_eq_dec : EqDecision event.
Proof. solve_decision. Defined.

(** The connection a [send] was called on. *)
Definition target (e : event) : WebSocket :=
  match e with Sent to _ | SendFailed to _ => to end.

(** The connections that received the message. *)
Definition delivered (e : event) : option (WebSocket * message) :=
  match e with Sent to data => Some (to, data) | SendFailed _ _ => None end.

(** [try { ws.send(message) } catch (error) { console.error(...) }]. *)
Definition try_send (net : Net) (ws : WebSocket) (data : message) : event :=
  if sendThrows net ws then SendFailed ws data else Sent ws data.

Module DrawingRoom.

Record t : Type := mk {
  id : value;
  clients : list (WebSocket * ClientInfo.t);
  drawingState : DrawingState.t;
  userColorIndex : nat;
  createdAt : Z;
  lastActivityAt : Z
}.

#[global] Instance t_eq_dec : EqDecision t.
Proof. solve_decision. Defined.

(** [constructor(roomId)]. *)
Definition new (now : Z) (roomId : value) : t :=
  {| id := roomId; clients := []; drawingState := DrawingState.new now;
     userColorIndex := 0; createdAt := now; lastActivityAt := now |}.

Definition set_clients (cs : list (WebSocket * ClientInfo.t)) (room : t) : t :=
  mk (id room) cs (drawingState room) (userColorIndex room) (createdAt room)
     (lastActivityAt room).
Definition set_drawingState (ds : DrawingState.t) (room : t) : t :=
  mk (id room) (clients room) ds (userColorIndex room) (createdAt room)
     (lastActivityAt room).
Definition set_userColorIndex (i : nat) (room : t) : t :=
  mk (id room) (clients room) (drawingState room) i (createdAt room)
     (lastActivityAt room).
Definition set_lastActivityAt (now : Z) (room : t) : t :=
  mk (id room) (clients room) (drawingState room) (userColorIndex room)
     (createdAt room) now.

(** [USER_COLORS[this.userColorIndex % USER_COLORS.length]]. *)
Definition paletteColor (index : nat) : value :=
  default Undefined (Str <$> USER_COLORS !! (index mod length USER_COLORS)).

(** The names bound to primitive values where [addClient] builds
    [clientInfo]: its parameters [userId] and [username] and the constant
    [assignedColor]. The other names in scope there are [ws], [this] and
    the module-level [uuidv4], [DrawingState], [USER_COLORS],
    [DrawingRoom] and [RoomManager]. *)
Definition addClient_scope (userId username assignedColor : value) : obj :=
  literal [("userId", userId); ("username", username);
           ("assignedColor", assignedColor)].

(** [addClient(ws, userId, username)]. The object literal is
    [{ userId, username, color, joinedAt: Date.now(),
       lastActivityAt: Date.now(), isActive: true }]: its first three
    properties are shorthands, each evaluating the identifier of that
    name. *)
Definition addClient (now : Z) (ws : WebSocket) (userId username : value)
    (room : t) : t * completion ClientInfo.t :=
  let assignedColor := paletteColor (userColorIndex room) in
  let room := set_userColorIndex (S (userColorIndex room)) room in
  let scope := addClient_scope userId username assignedColor in
  match ident scope "userId" with
  | Throw err => (room, Throw err)
  | Return userId_ =>
  match ident scope "username" with
  | Throw err => (room, Throw err)
  | Return username_ =>
  match ident scope "color" with
  | Throw err => (room, Throw err)
  | Return color_ =>
      let clientInfo :=
        {| ClientInfo.userId := userId_; ClientInfo.username := username_;
           ClientInfo.color := color_; ClientInfo.joinedAt := now;
           ClientInfo.lastActivityAt := now; ClientInfo.isActive := true |} in
      let room := set_clients (Map_set ws clientInfo (clients room)) room in
      let room := set_lastActivityAt now room in
      (room, Return clientInfo)
  end end end.

Definition removeClient (ws : WebSocket) (room : t) : t * option ClientInfo.t :=
  match Map_get ws (clients room) with
  | Some clientInfo => (set_clients (Map_delete ws (clients room)) room, Some clientInfo)
  | None => (room, None)
  end.

(** [broadcast(data, excludeWs = null)]: the calls of [ws.send], in the
    order of the [Map]. *)
Definition broadcast (net : Net) (data : message) (excludeWs : option WebSocket)
    (room : t) : list event :=
  flat_map
    (fun entry : WebSocket * ClientInfo.t =>
       let ws := entry.1 in
       if (readyState net ws =? 1)%Z && bool_decide (Some ws <> excludeWs)
       then [try_send net ws data] else [])
    (clients room).

Definition broadcastAll (net : Net) (data : message) (room : t) : list event :=
  broadcast net data None room.

Definition getActiveUsers (room : t) : list ActiveUser :=
  flat_map
    (fun entry : WebSocket * ClientInfo.t =>
       let clientInfo := entry.2 in
       if ClientInfo.isActive clientInfo
       then [mkActiveUser (ClientInfo.userId clientInfo) (ClientInfo.username clientInfo)
                          (ClientInfo.color clientInfo) (ClientInfo.joinedAt clientInfo)]
       else [])
    (clients room).

Definition getClientCount (room : t) : nat := length (clients room).

Definition isEmpty (room : t) : bool := length (clients room) =? 0.

(** [recordOperation(operation)]: the result of [addOperation] is dropped. *)
Definition recordOperation (uuid : string) (now : Z) (operation : obj) (room : t) : t :=
  set_lastActivityAt now
    (set_drawingState (DrawingState.addOperation uuid now operation (drawingState room)).1 room).

Definition getDrawingHistory (room : t) : list obj :=
  DrawingState.getHistory (drawingState room).

Definition getOperationHistory (room : t) : list obj :=
  DrawingState.getOperationHistory (drawingState room).

Definition clearDrawing (now : Z) (room : t) : t :=
  set_lastActivityAt now (set_drawingState (DrawingState.clear (drawingState room)) room).

Definition destroy (room : t) : t :=
  set_drawingState (DrawingState.clear (drawingState room)) (set_clients [] room).

End DrawingRoom.

Module RoomManager.

(** [rooms] is the [Map] from room id to room object; [heap] holds the
    room objects by address, also those no longer in the [Map], which the
    connections that joined them still reference. *)
Record t : Type := mk {
  heap : gmap nat DrawingRoom.t;
  rooms : list (value * nat)
}.

#[global] Instance t_eq_dec : EqDecision t.
Proof. solve_decision. Defined.

(** [constructor()]. *)
Definition new : t := {| heap := ∅; rooms := [] |}.

(** Mutating the room object at an address. *)
Definition update (a : nat) (f : DrawingRoom.t -> DrawingRoom.t) (m : t) : t :=
  {| heap := alter f a (heap m); rooms := rooms m |}.

Definition getOrCreateRoom (now : Z) (roomId : value) (m : t) : t * nat :=
  match Map_get roomId (rooms m) with
  | Some a => (m, a)
  | None =>
      let a := fresh (dom (heap m)) in
      ({| heap := <[a := DrawingRoom.new now roomId]> (heap m);
          rooms := Map_set roomId a (rooms m) |}, a)
  end.

Definition getRoom (roomId : value) (m : t) : option DrawingRoom.t :=
  a ← Map_get roomId (rooms m); heap m !! a.

Definition deleteRoom (roomId : value) (m : t) : t :=
  match Map_get roomId (rooms m) with
  | Some a =>
      {| heap := alter DrawingRoom.destroy a (heap m);
         rooms := Map_delete roomId (rooms m) |}
  | None => m
  end.

Definition oneHourInMs : Z := 60 * 60 * 1000.

(** One run of the callback of [startCleanupInterval], at time [now]. *)
Definition cleanup (now : Z) (m : t) : t :=
  let inactivityThreshold := (now - oneHourInMs)%Z in
  foldl
    (fun m (entry : value * nat) =>
       match heap m !! entry.2 with
       | Some room =>
           if DrawingRoom.isEmpty room
              && (DrawingRoom.lastActivityAt room <? inactivityThreshold)%Z
           then deleteRoom entry.1 m else m
       | None => m
       end)
    m (rooms m).

(** [getAllRooms()]: the room objects of the directory, in creation
    order. *)
Definition getAllRooms (m : t) : list DrawingRoom.t :=
  omap (fun entry : value * nat => heap m !! entry.2) (rooms m).

(** [destroy()], without the timer: every room of the directory is
    destroyed and the directory is emptied. *)
Definition destroy (m : t) : t :=
  {| heap := foldl (fun h (entry : value * nat) => alter DrawingRoom.destroy entry.2 h)
                   (heap m) (rooms m);
     rooms := [] |}.

End RoomManager.

(** ** The connection handler of the server entry point *)

Module Server.

(** The variables of one connection's closure. *)
Record Connection : Type := mkConnection {
  userId : string;
  username : value;
  currentRoom : option nat;
  userInfo : option ClientInfo.t
}.

#[global] Instance Connection_eq_dec : EqDecision Connection.
Proof. solve_decision. Defined.

(** What a handler reads from outside: the clock, the id generator and
    the network. *)
Record Env : Type := mkEnv {
  now : Z;
  uuid : string;
  net : Net
}.

(** A handler's outcome: the connection's variables, the rooms, and the
    [send] calls made. *)
Definition outcome : Type := Connection * RoomManager.t * list event.

(** [wss.on('connection')]: a fresh connection. *)
Definition connect (uuid : string) (generatedName : string) : Connection :=
  {| userId := uuid; username := Str generatedName; currentRoom := None;
     userInfo := None |}.

(** The room object behind [currentRoom]. *)
Definition room_at (a : nat) (m : RoomManager.t) : option DrawingRoom.t :=
  RoomManager.heap m !! a.

Definition handleJoinRoom (ws : WebSocket) (e : Env) (data : obj)
    (c : Connection) (m : RoomManager.t) : outcome * completion unit :=
  let roomId := or_else (get data "roomId") (Str "default") in
  let username_ := or_else (get data "username") (username c) in
  let '(m, a) := RoomManager.getOrCreateRoom (now e) roomId m in
  let c := mkConnection (userId c) username_ (Some a) (userInfo c) in
  match room_at a m with
  | None => ((c, m, []), Return tt)
  | Some room =>
      match DrawingRoom.addClient (now e) ws (Str (userId c)) username_ room with
      | (room, Throw err) =>
          ((c, RoomManager.update a (fun _ => room) m, []), Throw err)
      | (room, Return info) =>
          let m := RoomManager.update a (fun _ => room) m in
          let c := mkConnection (userId c) username_ (Some a) (Some info) in
          let reply :=
            LOAD_HISTORY (DrawingRoom.getDrawingHistory room)
                         (DrawingRoom.getOperationHistory room) info in
          if sendThrows (net e) ws
          then ((c, m, [SendFailed ws reply]), Throw "send failed")
          else
            ((c, m,
              Sent ws reply ::
              DrawingRoom.broadcastAll (net e)
                (USER_JOINED (DrawingRoom.getActiveUsers room)
                             (DrawingRoom.getClientCount room)) room),
             Return tt)
      end
  end.

(** The [operation] object [handleDraw] builds for the log. *)
Definition drawOperation (c : Connection) (data : obj) : obj :=
  literal [("type", Str "DRAW");
           ("userId", Str (userId c));
           ("x0", get data "x0");
           ("y0", get data "y0");
           ("x1", get data "x1");
           ("x1", get data "y1");
           ("color", get data "color");
           ("size", get data "size");
           ("timestamp", get data "timestamp");
           ("operationId", get data "operationId")].

(** The message [handleDraw] relays. *)
Definition drawRelay (c : Connection) (data : obj) : obj :=
  literal [("type", Str "DRAW");
           ("userId", Str (userId c));
           ("x0", get data "x0");
           ("y0", get data "y0");
           ("x1", get data "x1");
           ("y1", get data "y1");
           ("color", get data "color");
           ("size", get data "size");
           ("timestamp", get data "timestamp");
           ("operationId", get data "operationId")].

Definition handleDraw (ws : WebSocket) (e : Env) (data : obj)
    (c : Connection) (m : RoomManager.t) : outcome :=
  match currentRoom c with
  | None => (c, m, [])
  | Some a =>
      if negb (truthy (Str (userId c))) then (c, m, [])
      else
        let operation := drawOperation c data in
        let m := RoomManager.update a
                   (DrawingRoom.recordOperation (uuid e) (now e) operation) m in
        (c, m,
         from_option
           (DrawingRoom.broadcast (net e) (Flat (drawRelay c data)) (Some ws)) []
           (room_at a m))
  end.

(** The fields [handleErase] copies into the stored operation and into
    the relayed message. *)
Definition eraseFields (c : Connection) (data : obj) : obj :=
  literal [("type", Str "ERASE");
           ("userId", Str (userId c));
           ("x0", get data "x0");
           ("y0", get data "y0");
           ("x1", get data "x1");
           ("y1", get data "y1");
           ("size", get data "size");
           ("timestamp", get data "timestamp");
           ("operationId", get data "operationId")].

Definition handleErase (ws : WebSocket) (e : Env) (data : obj)
    (c : Connection) (m : RoomManager.t) : outcome :=
  match currentRoom c with
  | None => (c, m, [])
  | Some a =>
      if negb (truthy (Str (userId c))) then (c, m, [])
      else
        let operation := eraseFields c data in
        let m := RoomManager.update a
                   (DrawingRoom.recordOperation (uuid e) (now e) operation) m in
        (c, m,
         from_option
           (DrawingRoom.broadcast (net e) (Flat (eraseFields c data)) (Some ws)) []
           (room_at a m))
  end.

(** The notices of a successful undo, of a successful redo and of a
    clear. *)
Definition undoNotice (c : Connection) (data : obj) : obj :=
  literal [("type", Str "UNDO");
           ("userId", Str (userId c));
           ("operationId", get data "operationId");
           ("timestamp", get data "timestamp")].

Definition redoNotice (c : Connection) (data : obj) : obj :=
  literal [("type", Str "REDO");
           ("userId", Str (userId c));
           ("operationId", get data "operationId");
           ("timestamp", get data "timestamp")].

Definition clearNotice (c : Connection) (data : obj) : obj :=
  literal [("type", Str "CLEAR_CANVAS");
           ("userId", Str (userId c));
           ("timestamp", get data "timestamp")].

Definition handleUndo (ws : WebSocket) (e : Env) (data : obj)
    (c : Connection) (m : RoomManager.t) : outcome :=
  match currentRoom c with
  | None => (c, m, [])
  | Some a =>
      match room_at a m with
      | None => (c, m, [])
      | Some room =>
          let '(ds, success) :=
            DrawingState.recordUndo (now e) data (DrawingRoom.drawingState room) in
          let room := DrawingRoom.set_drawingState ds room in
          let m := RoomManager.update a (fun _ => room) m in
          if success then
            (c, m,
             DrawingRoom.broadcastAll (net e) (Flat (undoNotice c data)) room)
          else (c, m, [])
      end
  end.

Definition handleRedo (ws : WebSocket) (e : Env) (data : obj)
    (c : Connection) (m : RoomManager.t) : outcome :=
  match currentRoom c with
  | None => (c, m, [])
  | Some a =>
      match room_at a m with
      | None => (c, m, [])
      | Some room =>
          let '(ds, success) :=
            DrawingState.recordRedo (now e) data (DrawingRoom.drawingState room) in
          let room := DrawingRoom.set_drawingState ds room in
          let m := RoomManager.update a (fun _ => room) m in
          if success then
            (c, m,
             DrawingRoom.broadcastAll (net e) (Flat (redoNotice c data)) room)
          else (c, m, [])
      end
  end.

Definition handleClearCanvas (ws : WebSocket) (e : Env) (data : obj)
    (c : Connection) (m : RoomManager.t) : outcome :=
  match currentRoom c with
  | None => (c, m, [])
  | Some a =>
      let m := RoomManager.update a (DrawingRoom.clearDrawing (now e)) m in
      (c, m,
       from_option
         (DrawingRoom.broadcastAll (net e) (Flat (clearNotice c data))) []
         (room_at a m))
  end.

Definition handleCursorMove (ws : WebSocket) (e : Env) (data : obj)
    (c : Connection) (m : RoomManager.t) : outcome :=
  match currentRoom c with
  | None => (c, m, [])
  | Some a =>
      (c, m,
       from_option
         (DrawingRoom.broadcast (net e)
            (Flat (literal [("type", Str "CURSOR_MOVE");
                            ("userId", Str (userId c));
                            ("x", get data "x");
                            ("y", get data "y")])) (Some ws)) []
         (room_at a m))
  end.

(** [ws.on('message')] on a parsed message: the [switch] on [data.type]
    inside [try]; the [catch] reports to the sender. *)
Definition onMessage (ws : WebSocket) (e : Env) (data : obj)
    (c : Connection) (m : RoomManager.t) : outcome :=
  let type := get data "type" in
  if strict_eq type (Str "JOIN_ROOM") then
    match handleJoinRoom ws e data c m with
    | (o, Return _) => o
    | ((c, m, sent), Throw _) =>
        (c, m, sent ++ [try_send (net e) ws (ERROR "Server failed to process your message")])
    end
  else if strict_eq type (Str "DRAW") then handleDraw ws e data c m
  else if strict_eq type (Str "ERASE") then handleErase ws e data c m
  else if strict_eq type (Str "UNDO") then handleUndo ws e data c m
  else if strict_eq type (Str "REDO") then handleRedo ws e data c m
  else if strict_eq type (Str "CLEAR_CANVAS") then handleClearCanvas ws e data c m
  else if strict_eq type (Str "CURSOR_MOVE") then handleCursorMove ws e data c m
  else (c, m, []).

(** [ws.on('close')]. *)
Definition onClose (ws : WebSocket) (e : Env) (c : Connection)
    (m : RoomManager.t) : outcome :=
  match currentRoom c with
  | None => (c, m, [])
  | Some a =>
      let m := RoomManager.update a (fun room => (DrawingRoom.removeClient ws room).1) m in
      match room_at a m with
      | None => (c, m, [])
      | Some room =>
          if negb (DrawingRoom.isEmpty room) then
            (c, m,
             DrawingRoom.broadcastAll (net e)
               (USER_LEFT (DrawingRoom.getActiveUsers room)
                          (DrawingRoom.getClientCount room)) room)
          else (c, RoomManager.deleteRoom (DrawingRoom.id room) m, [])
      end
  end.

(** What [JSON.parse(message)] yields: it throws; or it returns [null],
    whose [type] cannot be read; or a number, a string, a boolean or an
    array, whose [type] is [undefined]; or an object. *)
Inductive parsed : Type :=
| NotJSON
| ParsedNull
| ParsedOther
| ParsedObject (data : obj).

(** [ws.on('message')] on the raw message: [JSON.parse] and the read of
    [data.type] are inside the [try]; what they throw is caught like what
    a handler throws. *)
Definition onRawMessage (ws : WebSocket) (e : Env) (message : parsed)
    (c : Connection) (m : RoomManager.t) : outcome :=
  match message with
  | NotJSON | ParsedNull =>
      (c, m, [try_send (net e) ws (ERROR "Server failed to process your message")])
  | ParsedOther => (c, m, [])
  | ParsedObject data => onMessage ws e data c m
  end.

End Server.

(** ** Sequences of log operations *)

(** The four mutators of the operation log, with what each reads from its
    caller, the clock and the id generator. *)
Inductive command : Type :=
| Append (uuid : string) (now : Z) (operation : obj)
| Undo (now : Z) (undoOp : obj)
| Redo (now : Z) (redoOp : obj)
| Clear.

Definition step (st : DrawingState.t) (cmd : command) : DrawingState.t :=
  match cmd with
  | Append uuid now operation => (DrawingState.addOperation uuid now operation st).1
  | Undo now undoOp => (DrawingState.recordUndo now undoOp st).1
  | Redo now redoOp => (DrawingState.recordRedo now redoOp st).1
  | Clear => DrawingState.clear st
  end.

Definition run (cmds : list command) (st : DrawingState.t) : DrawingState.t :=
  foldl step st cmds.

(** Appending a batch of operations, each with the id and the time the
    server would draw for it, and the entries the batch leaves in the log
    when nothing is evicted. *)
Definition appends (ops : list (string * Z * obj)) : list command :=
  (fun '(uuid, now, operation) => Append uuid now operation) <$> ops.

Definition enrichAll (ops : list (string * Z * obj)) : list obj :=
  (fun '(uuid, now, operation) => DrawingState.enrich uuid now operation) <$> ops.

Definition allValid (ops : list (string * Z * obj)) : Prop :=
  Forall (fun entry => DrawingState.validateOperation entry.2 = true) ops.

(** The id an operation carries once it is in the log. *)
Definition id_of (op : obj) : value := get op "id".



(** The connections a trace called [send] on, in order. *)
Definition recipients (trace : list event) : list WebSocket := target <$> trace.

(** Whether a connection is open ([readyState === 1]). *)
Definition isOpen (net : Net) (ws : WebSocket) : Prop := readyState net ws = 1%Z.

#[global] Instance isOpen_dec net ws : Decision (isOpen net ws).
Proof. unfold isOpen. apply _. Defined.

(** The connections registered in a room, in joining order. *)
Definition members (room : DrawingRoom.t) : list WebSocket :=
  (DrawingRoom.clients room).*1.

(** The histories of all room objects, by address. *)
Definition histories (m : RoomManager.t) : gmap nat (list obj) :=
  DrawingRoom.getDrawingHistory <$> RoomManager.heap m.

(** ** Sample messages and operations *)

(** A well-formed DRAW operation, as a client's message spells it. *)
Definition sampleDraw (userId operationId : string) : obj :=
  literal [("type", Str "DRAW"); ("userId", Str userId);
           ("x0", Num 0); ("y0", Num 0); ("x1", Num 5); ("y1", Num 5);
           ("color", Str "#000"); ("size", Num 3);
           ("timestamp", Num 1700000000000); ("operationId", Str operationId)].

Definition sampleErase (userId operationId : string) : obj :=
  literal [("type", Str "ERASE"); ("userId", Str userId);
           ("x0", Num 1); ("y0", Num 2); ("x1", Num 3); ("y1", Num 4);
           ("size", Num 20);
           ("timestamp", Num 1700000000001); ("operationId", Str operationId)].

Definition sampleClear (userId operationId : string) : obj :=
  literal [("type", Str "CLEAR_CANVAS"); ("userId", Str userId);
           ("timestamp", Num 1700000000002); ("operationId", Str operationId)].

Definition sampleUndo (userId operationId : string) : obj :=
  literal [("type", Str "UNDO"); ("userId", Str userId);
           ("operationId", Str operationId); ("timestamp", Num 1700000000003)].

Definition sampleRedo (userId : string) : obj :=
  literal [("type", Str "REDO"); ("userId", Str userId);
           ("timestamp", Num 1700000000004)].

(** The [i]-th operation of a numbered batch, and the batch of the first
    [n] of them. *)
Definition numberedErase (i : nat) : obj :=
  literal [("type", Str "ERASE"); ("userId", Str "alice");
           ("x0", Num 1); ("y0", Num 2); ("x1", Num 3); ("y1", Num 4);
           ("size", Num 20);
           ("timestamp", Num (Z.of_nat i)); ("operationId", Num (Z.of_nat i))].

Definition sampleBatch (n : nat) : list (string * Z * obj) :=
  (fun i => ("uuid-0", Z.of_nat i, numberedErase i)) <$> seq 1 n.

Definition numberedUndo (i : nat) : obj :=
  literal [("type", Str "UNDO"); ("userId", Str "alice");
           ("operationId", Num (Z.of_nat i)); ("timestamp", Num 1700000000005)].

(** A network on which every connection but number 3 is open and no
    [send] throws, and an environment on it. *)
Definition sampleNet : Net :=
  {| readyState := fun ws => if decide (ws = 3) then 3%Z else 1%Z;
     sendThrows := fun _ => false |}.

Definition sampleEnv (now : Z) : Server.Env :=
  {| Server.now := now; Server.uuid := "uuid-7"; Server.net := sampleNet |}.

Definition sampleInfo (userId username color : string) : ClientInfo.t :=
  {| ClientInfo.userId := Str userId; ClientInfo.username := Str username;
     ClientInfo.color := Str color; ClientInfo.joinedAt := 100;
     ClientInfo.lastActivityAt := 100; ClientInfo.isActive := true |}.

(** Room "r1" with the one participant Alice on connection 1 and one
    stroke in its history. *)
Definition roomOfAlice : DrawingRoom.t :=
  {| DrawingRoom.id := Str "r1";
     DrawingRoom.clients := [(1, sampleInfo "uuid-alice" "Alice" "#FF6B6B")];
     DrawingRoom.drawingState :=
       (DrawingState.addOperation "uuid-1" 110 (sampleDraw "uuid-alice" "o1")
          (DrawingState.new 100)).1;
     DrawingRoom.userColorIndex := 1;
     DrawingRoom.createdAt := 100;
     DrawingRoom.lastActivityAt := 110 |}.

(** Room "r1" with Alice, Bob and Carol on connections 1, 2 and 3. *)
Definition roomOfThree : DrawingRoom.t :=
  {| DrawingRoom.id := Str "r1";
     DrawingRoom.clients :=
       [(1, sampleInfo "uuid-alice" "Alice" "#FF6B6B");
        (2, sampleInfo "uuid-bob" "Bob" "#4ECDC4");
        (3, sampleInfo "uuid-carol" "Carol" "#45B7D1")];
     DrawingRoom.drawingState :=
       run [Append "uuid-2" 108 (sampleErase "uuid-bob" "o2");
            Append "uuid-1" 110 (sampleDraw "uuid-alice" "o1");
            Undo 112 (sampleUndo "uuid-bob" "o2")] (DrawingState.new 100);
     DrawingRoom.userColorIndex := 3;
     DrawingRoom.createdAt := 100;
     DrawingRoom.lastActivityAt := 110 |}.

Definition managerOf (room : DrawingRoom.t) : RoomManager.t :=
  {| RoomManager.heap := {[0 := room]};
     RoomManager.rooms := [(DrawingRoom.id room, 0)] |}.

Definition connectionOfAlice : Server.Connection :=
  {| Server.userId := "uuid-alice"; Server.username := Str "Alice";
     Server.currentRoom := Some 0;
     Server.userInfo := Some (sampleInfo "uuid-alice" "Alice" "#FF6B6B") |}.

(** The messages of the scenario: a join of room "r1" and the stroke o1. *)
Definition joinR1 (username : string) : obj :=
  literal [("type", Str "JOIN_ROOM"); ("roomId", Str "r1");
           ("username", Str username)].

Definition drawO1 : obj :=
  literal [("type", Str "DRAW"); ("x0", Num 0); ("y0", Num 0);
           ("x1", Num 5); ("y1", Num 5); ("color", Str "#000");
           ("size", Num 3); ("timestamp", Num 1700000000000);
           ("operationId", Str "o1")].

(** ** Vocabulary of the further properties *)

#[global] Instance command_eq_dec : EqDecision command.
Proof. solve_decision. Defined.

(** The valid appends among a sequence of commands. *)
Definition validAppend (cmd : command) : Prop :=
  match cmd with
  | Append _ _ operation => DrawingState.validateOperation operation = true
  | _ => False
  end.

#[global] Instance validAppend_dec cmd : Decision (validAppend cmd).
Proof. destruct cmd; simpl; apply _. Defined.



(** The directory of rooms is well formed: its ids are distinct, its room
    objects are distinct, and each of them is allocated. *)
Definition directory_ok (m : RoomManager.t) : Prop :=
  NoDup (RoomManager.rooms m).*1
  /\ NoDup (RoomManager.rooms m).*2
  /\ Forall (fun entry : value * nat => is_Some (RoomManager.heap m !! entry.2))
            (RoomManager.rooms m).

(** The test of the periodic sweep on the room object at an address: the
    room is empty and its last activity is more than an hour before
    [now]. *)
Definition doomedAt (now : Z) (h : gmap nat DrawingRoom.t) (a : nat) : bool :=
  match h !! a with
  | Some room =>
      DrawingRoom.isEmpty room
      && (DrawingRoom.lastActivityAt room <? now - RoomManager.oneHourInMs)%Z
  | None => false
  end.

(** What the sweep does at one entry of the directory. *)
Definition sweepStep (now : Z) (m : RoomManager.t) (entry : value * nat) : RoomManager.t :=
  if doomedAt now (RoomManager.heap m) entry.2
  then RoomManager.deleteRoom entry.1 m else m.

(** A room object after [destroy]: no clients and an empty log. *)
Definition wiped (room : DrawingRoom.t) : Prop :=
  DrawingRoom.clients room = []
  /\ DrawingState.drawingHistory (DrawingRoom.drawingState room) = []
  /\ DrawingState.redoStack (DrawingRoom.drawingState room) = []
  /\ DrawingState.operationHistory (DrawingRoom.drawingState room) = [].

(** A directory with room "r1" (Alice in it) and an empty room "r2"
    created at time 100. *)
Definition managerOfTwo : RoomManager.t :=
  (RoomManager.getOrCreateRoom 100 (Str "r2") (managerOf roomOfAlice)).1.

(** A relayed message of the given kind: it names the kind and the
    sender, and carries the listed fields of the incoming message. *)
Definition relays (kind : string) (keys : list string) (sender : string)
    (data msg : obj) : Prop :=
  get msg "type" = Str kind
  /\ get msg "userId" = Str sender
  /\ Forall (fun k => get msg k = get data k) keys.

(** A trace that hands [msg] to exactly the connections [to], in order:
    each of them whose [send] does not throw is sent it, and there is
    nothing else in the trace. *)
Definition delivers (net : Net) (msg : obj) (to : list WebSocket)
    (trace : list event) : Prop :=
  recipients trace = to
  /\ (forall p, p ∈ to -> sendThrows net p = false -> Sent p (Flat msg) ∈ trace)
  /\ (forall ev, ev ∈ trace ->
        ev = Sent (target ev) (Flat msg)
        \/ (sendThrows net (target ev) = true /\ ev = SendFailed (target ev) (Flat msg))).








(** ** Facts about arrays and maps *)

Section Arrays.
Context {A : Type}.
Implicit Types (p : A -> bool) (l : list A).

Lemma findIndex_None p l :
  findIndex p l = None <-> Forall (fun x => p x = false) l.
Proof.
  induction l as [|x l IH]; simpl.
  - split; [constructor | reflexivity].
  - destruct (p x) eqn:Hx.
    + split; [discriminate | intros H; inversion H; congruence].
    + destruct (findIndex p l); simpl.
      * split; [discriminate|]. intros H. inversion H as [|? ? _ Hl]; subst.
        apply IH in Hl. discriminate.
      * split; [|reflexivity]. intros _. constructor; [assumption|].
        apply IH. reflexivity.
Qed.

Lemma findIndex_Some p l i :
  findIndex p l = Some i ->
  exists x, l !! i = Some x /\ p x = true
            /\ Forall (fun y => p y = false) (take i l).
Proof.
  revert i. induction l as [|x l IH]; intros i; simpl; [discriminate|].
  destruct (p x) eqn:Hx.
  - intros [= <-]. exists x. repeat split; [assumption | constructor].
  - destruct (findIndex p l) as [j|] eqn:Hj; simpl; [|discriminate].
    intros [= <-]. destruct (IH j eq_refl) as (y & Hy & Hp & Hbefore).
    exists y. repeat split; [assumption .. |]. simpl. constructor; assumption.
Qed.

Lemma findIndex_head p x l : p x = true -> findIndex p (x :: l) = Some 0.
Proof. intros H. simpl. rewrite H. reflexivity. Qed.

Lemma pop_nil : pop (@nil A) = None.
Proof. reflexivity. Qed.

Lemma pop_snoc l x : pop (l ++ [x]) = Some (x, l).
Proof. unfold pop. rewrite last_snoc, removelast_last. reflexivity. Qed.

Lemma pop_Some l x rest : pop l = Some (x, rest) -> l = rest ++ [x].
Proof.
  destruct l as [|y l'] using rev_ind; [discriminate|].
  rewrite pop_snoc. intros [= -> ->]. reflexivity.
Qed.

Lemma pop_None l : pop l = None -> l = [].
Proof.
  destruct l as [|y l'] using rev_ind; [reflexivity|].
  rewrite pop_snoc. discriminate.
Qed.
End Arrays.

(** ** The operation log *)

Section Log.
Import DrawingState.
Implicit Types (st : DrawingState.t) (op operation undoOp redoOp : obj).


Lemma addOperation_valid uuid now operation st :
  validateOperation operation = true ->
  addOperation uuid now operation st
  = ({| drawingHistory :=
          if maxHistorySize st <? length (drawingHistory st ++ [enrich uuid now operation])
          then tail (drawingHistory st ++ [enrich uuid now operation])
          else drawingHistory st ++ [enrich uuid now operation];
        operationHistory := operationHistory st;
        operationStack := operationStack st ++ [operation];
        redoStack := [];
        maxHistorySize := maxHistorySize st;
        createdAt := createdAt st |}, true).
Proof. intros H. unfold addOperation. rewrite H. reflexivity. Qed.

Lemma addOperation_invalid uuid now operation st :
  validateOperation operation = false ->
  addOperation uuid now operation st = (st, false).
Proof. intros H. unfold addOperation. rewrite H. reflexivity. Qed.

Lemma addOperation_success uuid now operation st :
  (addOperation uuid now operation st).2 = validateOperation operation.
Proof. unfold addOperation. destruct (validateOperation operation); reflexivity. Qed.

(** An undo whose id no entry of the history carries changes nothing. *)
Lemma recordUndo_miss now undoOp st :
  Forall (fun op => id_of op <> get undoOp "operationId") (drawingHistory st) ->
  recordUndo now undoOp st = (st, false).
Proof.
  intros Hmiss. unfold recordUndo.
  replace (findIndex _ (drawingHistory st)) with (@None nat); [reflexivity|].
  symmetry. apply findIndex_None.
  eapply Forall_impl; [exact Hmiss|]. intros op Hne. simpl in *.
  unfold strict_eq. apply bool_decide_eq_false. exact Hne.
Qed.

(** An undo whose id some entry carries removes the first such entry. *)
Lemma recordUndo_hit now undoOp st :
  Exists (fun op => id_of op = get undoOp "operationId") (drawingHistory st) ->
  exists i removed,
    drawingHistory st !! i = Some removed
    /\ id_of removed = get undoOp "operationId"
    /\ Forall (fun op => id_of op <> get undoOp "operationId")
              (take i (drawingHistory st))
    /\ recordUndo now undoOp st
       = ({| drawingHistory := delete i (drawingHistory st);
             operationHistory := operationHistory st ++ [undoRecord now undoOp];
             operationStack := operationStack st;
             redoStack := redoStack st ++ [removed];
             maxHistorySize := maxHistorySize st;
             createdAt := createdAt st |}, true).
Proof.
  intros Hhit. unfold recordUndo.
  destruct (findIndex _ (drawingHistory st)) as [i|] eqn:Hfind.
  - destruct (findIndex_Some _ _ _ Hfind) as (x & Hx & Hp & Hbefore).
    exists i, x. rewrite Hx. repeat split; try assumption.
    + apply bool_decide_eq_true in Hp. exact Hp.
    + eapply Forall_impl; [exact Hbefore|]. intros y Hy.
      apply bool_decide_eq_false in Hy. exact Hy.
  - exfalso. apply findIndex_None in Hfind.
    apply Exists_exists in Hhit as (x & Hin & Hid).
    rewrite Forall_forall in Hfind. specialize (Hfind x Hin).
    apply bool_decide_eq_false in Hfind. apply Hfind. exact Hid.
Qed.

Lemma recordUndo_head now undoOp st x rest :
  drawingHistory st = x :: rest ->
  id_of x = get undoOp "operationId" ->
  recordUndo now undoOp st
  = ({| drawingHistory := rest;
        operationHistory := operationHistory st ++ [undoRecord now undoOp];
        operationStack := operationStack st;
        redoStack := redoStack st ++ [x];
        maxHistorySize := maxHistorySize st;
        createdAt := createdAt st |}, true).
Proof.
  intros Hh Hid. unfold recordUndo. rewrite Hh.
  rewrite findIndex_head by (apply bool_decide_eq_true; exact Hid).
  reflexivity.
Qed.

Lemma recordRedo_empty now redoOp st :
  redoStack st = [] -> recordRedo now redoOp st = (st, false).
Proof. intros H. unfold recordRedo. rewrite H. reflexivity. Qed.

Lemma recordRedo_snoc now redoOp st rest operation :
  redoStack st = rest ++ [operation] ->
  recordRedo now redoOp st
  = ({| drawingHistory := drawingHistory st ++ [operation];
        operationHistory := operationHistory st ++ [redoRecord now redoOp operation];
        operationStack := operationStack st;
        redoStack := rest;
        maxHistorySize := maxHistorySize st;
        createdAt := createdAt st |}, true).
Proof. intros H. unfold recordRedo. rewrite H, pop_snoc. reflexivity. Qed.

(** C5. Undo/redo round trip: from the empty log, appending two valid
    operations A and B and undoing A by its id leaves the history [B];
    the redo that follows succeeds and leaves [B, A], A being appended
    at the end and not put back in front of B. A is the first entry
    when it is undone, so this holds whether or not B's id differs
    from A's. *)
Theorem undo_redo_round_trip (A B undoOp redoOp : obj) (uA uB : string)
    (t0 tA tB tU tR : Z) :
  validateOperation A = true ->
  validateOperation B = true ->
  get undoOp "operationId" = id_of (enrich uA tA A) ->
  let s1 := addOperation uA tA A (new t0) in
  let s2 := addOperation uB tB B s1.1 in
  let s3 := recordUndo tU undoOp s2.1 in
  let s4 := recordRedo tR redoOp s3.1 in
  s1.2 = true /\ s2.2 = true
  /\ s3.2 = true /\ drawingHistory s3.1 = [enrich uB tB B]
  /\ s4.2 = true /\ drawingHistory s4.1 = [enrich uB tB B; enrich uA tA A].
Proof.
  intros HA HB Hid. cbv zeta.
  rewrite (addOperation_valid _ _ A) by exact HA. cbn [fst snd].
  rewrite (addOperation_valid _ _ B) by exact HB. cbn [fst snd].
  change (drawingHistory (new t0)) with (@nil obj).
  change (maxHistorySize (new t0)) with 500.
  cbn [drawingHistory maxHistorySize app length Nat.ltb Nat.leb].
  set (a := enrich uA tA A). set (b := enrich uB tB B).
  unfold recordUndo. cbn [drawingHistory].
  rewrite findIndex_head
    by (apply bool_decide_eq_true; symmetry; exact Hid).
  cbn [lookup list_lookup delete list_delete fst snd drawingHistory redoStack app].
  unfold recordRedo. cbn [redoStack]. change [a] with ([] ++ [a]) at 1 2.
  rewrite pop_snoc.
  cbn [fst snd drawingHistory app]. repeat split; reflexivity.
Qed.

Lemma undo_redo_round_trip_witness :
  let A := sampleDraw "alice" "o1" in
  let B := sampleErase "bob" "o2" in
  let s1 := addOperation "uuid-1" 11 A (new 10) in
  let s2 := addOperation "uuid-2" 12 B s1.1 in
  let s3 := recordUndo 13 (sampleUndo "alice" "o1") s2.1 in
  let s4 := recordRedo 14 (sampleRedo "bob") s3.1 in
  s1.2 = true /\ s2.2 = true
  /\ s3.2 = true /\ drawingHistory s3.1 = [enrich "uuid-2" 12 B]
  /\ s4.2 = true
  /\ drawingHistory s4.1 = [enrich "uuid-2" 12 B; enrich "uuid-1" 11 A].
Proof.
  apply (undo_redo_round_trip (sampleDraw "alice" "o1") (sampleErase "bob" "o2")
           (sampleUndo "alice" "o1") (sampleRedo "bob") "uuid-1" "uuid-2"
           10 11 12 13 14); vm_compute; reflexivity.
Defined.

(** C6. Redo invalidation: a successful append leaves the redo buffer
    empty, whatever it held; in particular, from the empty log, after
    appending A, undoing it by id (which parks A in the redo buffer) and
    appending C, a redo fails and changes nothing. *)
Theorem append_clears_redo_buffer (st : DrawingState.t) (op A C undoOp redoOp : obj)
    (u uA uC : string) (t t0 tA tU tC tR : Z) :
  (addOperation u t op st).2 = true ->
  validateOperation A = true ->
  validateOperation C = true ->
  get undoOp "operationId" = id_of (enrich uA tA A) ->
  let s1 := addOperation uA tA A (new t0) in
  let s2 := recordUndo tU undoOp s1.1 in
  let s3 := addOperation uC tC C s2.1 in
  redoStack (addOperation u t op st).1 = []
  /\ s2.2 = true /\ redoStack s2.1 = [enrich uA tA A]
  /\ s3.2 = true /\ redoStack s3.1 = []
  /\ recordRedo tR redoOp s3.1 = (s3.1, false).
Proof.
  intros Hok HA HC Hid. cbv zeta.
  rewrite (addOperation_valid _ _ A) by exact HA. cbn [fst snd].
  change (drawingHistory (new t0)) with (@nil obj).
  change (maxHistorySize (new t0)) with 500.
  cbn [app length Nat.ltb Nat.leb].
  erewrite recordUndo_head; [|reflexivity|symmetry; exact Hid].
  cbn [fst snd redoStack app].
  rewrite (addOperation_valid _ _ C) by exact HC. cbn [fst snd redoStack].
  repeat split; try reflexivity.
  rewrite addOperation_success in Hok.
  rewrite addOperation_valid by exact Hok. reflexivity.
Qed.

Lemma append_clears_redo_buffer_witness :
  let A := sampleDraw "alice" "o1" in
  let C := sampleErase "carol" "o3" in
  let s1 := addOperation "uuid-1" 11 A (new 10) in
  let s2 := recordUndo 12 (sampleUndo "alice" "o1") s1.1 in
  let s3 := addOperation "uuid-3" 13 C s2.1 in
  redoStack (addOperation "uuid-3" 13 C s2.1).1 = []
  /\ s2.2 = true /\ redoStack s2.1 = [enrich "uuid-1" 11 A]
  /\ s3.2 = true /\ redoStack s3.1 = []
  /\ recordRedo 14 (sampleRedo "carol") s3.1 = (s3.1, false).
Proof.
  apply (append_clears_redo_buffer
           (recordUndo 12 (sampleUndo "alice" "o1")
              (addOperation "uuid-1" 11 (sampleDraw "alice" "o1") (new 10)).1).1
           (sampleErase "carol" "o3") (sampleDraw "alice" "o1")
           (sampleErase "carol" "o3") (sampleUndo "alice" "o1") (sampleRedo "carol")
           "uuid-3" "uuid-1" "uuid-3" 13 10 11 12 13 14);
    vm_compute; reflexivity.
Defined.

End Log.

(** ** The capacity bound *)

Section Capacity.
Import DrawingState.
Implicit Types (st : DrawingState.t) (ops : list (string * Z * obj)).

Lemma tail_drop_1 {A : Type} (l : list A) : tail l = drop 1 l.
Proof. destruct l; reflexivity. Qed.

(** What steps 3 and 4 of [addOperation] leave of a history within the
    bound: the last [maxHistorySize] entries. *)
Lemma push_trim (M : nat) (h : list obj) (e : obj) :
  length h <= M ->
  (if M <? length (h ++ [e]) then tail (h ++ [e]) else h ++ [e])
  = drop (length (h ++ [e]) - M) (h ++ [e]).
Proof.
  intros Hle. rewrite length_app. simpl.
  destruct (Nat.ltb_spec M (length h + 1)) as [Hlt|Hge].
  - replace (length h + 1 - M) with 1 by lia. apply tail_drop_1.
  - replace (length h + 1 - M) with 0 by lia. reflexivity.
Qed.

Lemma step_maxHistorySize st cmd : maxHistorySize (step st cmd) = maxHistorySize st.
Proof.
  destruct cmd as [u t op|t undoOp|t redoOp|]; simpl.
  - unfold addOperation. destruct (validateOperation op); reflexivity.
  - unfold recordUndo. destruct (findIndex _ _); [|reflexivity].
    destruct (_ !! _); reflexivity.
  - unfold recordRedo. destruct (pop _) as [[? ?]|]; reflexivity.
  - reflexivity.
Qed.

(** The history and the redo buffer together never hold more than
    [maxHistorySize] operations: an append empties the redo buffer, an
    undo moves one entry from the history to it, a redo moves one back. *)
Lemma step_bounded st cmd :
  length (drawingHistory st) + length (redoStack st) <= maxHistorySize st ->
  length (drawingHistory (step st cmd)) + length (redoStack (step st cmd))
  <= maxHistorySize st.
Proof.
  intros Hb. destruct cmd as [u t op|t undoOp|t redoOp|]; simpl.
  - unfold addOperation. destruct (validateOperation op); simpl; [|exact Hb].
    rewrite push_trim by lia. rewrite length_drop, length_app. simpl. lia.
  - unfold recordUndo. destruct (findIndex _ _) as [i|]; [|exact Hb].
    destruct (drawingHistory st !! i) as [x|] eqn:Hx; [|exact Hb]. simpl.
    rewrite length_delete by eauto. rewrite length_app. simpl.
    apply lookup_lt_Some in Hx. lia.
  - unfold recordRedo. destruct (pop (redoStack st)) as [[x rest]|] eqn:Hpop;
      [|exact Hb]. simpl.
    apply pop_Some in Hpop. rewrite Hpop in Hb.
    rewrite !length_app in *. simpl in *. lia.
  - lia.
Qed.

Lemma run_bounded cmds st :
  length (drawingHistory st) + length (redoStack st) <= maxHistorySize st ->
  maxHistorySize (run cmds st) = maxHistorySize st
  /\ length (drawingHistory (run cmds st)) + length (redoStack (run cmds st))
     <= maxHistorySize st.
Proof.
  revert st. induction cmds as [|cmd cmds IH]; intros st Hb; [split; [reflexivity|exact Hb]|].
  unfold run in *. simpl.
  destruct (IH (step st cmd)) as [HM Hlen].
  - rewrite step_maxHistorySize. apply step_bounded. exact Hb.
  - rewrite step_maxHistorySize in HM, Hlen. split; assumption.
Qed.

(** A batch of valid operations appended to a history within the bound
    leaves the last [maxHistorySize] entries of the extended history. *)
Lemma run_appends ops st :
  allValid ops ->
  length (drawingHistory st) <= maxHistorySize st ->
  maxHistorySize (run (appends ops) st) = maxHistorySize st
  /\ redoStack (run (appends ops) st)
     = match ops with [] => redoStack st | _ :: _ => [] end
  /\ drawingHistory (run (appends ops) st)
     = drop (length (drawingHistory st ++ enrichAll ops) - maxHistorySize st)
            (drawingHistory st ++ enrichAll ops).
Proof.
  revert st. induction ops as [|[[u t] op] ops IH]; intros st Hvalid Hle.
  - simpl. rewrite app_nil_r.
    replace (length (drawingHistory st) - maxHistorySize st) with 0 by lia.
    repeat split; reflexivity.
  - inversion Hvalid as [|? ? Hop Hrest]; subst. simpl in Hop.
    unfold run, appends in *. cbn [fmap list_fmap foldl step].
    rewrite (addOperation_valid u t op st Hop). cbn [fst].
    rewrite push_trim by exact Hle.
    set (e := enrich u t op). set (h := drawingHistory st) in *.
    set (M := maxHistorySize st) in *.
    set (st1 := {| drawingHistory := drop (length (h ++ [e]) - M) (h ++ [e]);
                   operationHistory := _ |}).
    destruct (IH st1 Hrest) as (HM & Hredo & Hh).
    { simpl. rewrite length_drop, length_app. simpl. lia. }
    split; [exact HM|]. split.
    { rewrite Hredo. destruct ops; reflexivity. }
    rewrite Hh. subst st1. cbn [drawingHistory maxHistorySize].
    change (enrichAll ((u, t, op) :: ops)) with (e :: enrichAll ops).
    set (es := enrichAll ops).
    assert (Hsplit : h ++ e :: es = (h ++ [e]) ++ es)
      by (rewrite <- app_assoc; reflexivity).
    rewrite Hsplit.
    rewrite <- drop_app_le by (rewrite length_app; simpl; lia).
    rewrite drop_drop. f_equal.
    rewrite length_drop, !length_app. simpl. lia.
Qed.

(** C7. Capacity bound: in every state reached from the empty log by
    appends, undos, redos and clears the history holds at most 500
    operations; and 501 valid operations appended to the empty log
    leave exactly the last 500 of them, the first one being evicted. *)
Theorem history_capacity_bound :
  (forall (cmds : list command) (t0 : Z),
      length (drawingHistory (run cmds (new t0))) <= 500)
  /\ (forall ops (t0 : Z),
        allValid ops ->
        length ops = maxHistorySize (new t0) + 1 ->
        drawingHistory (run (appends ops) (new t0)) = drop 1 (enrichAll ops)
        /\ length (drawingHistory (run (appends ops) (new t0)))
           = maxHistorySize (new t0)).
Proof.
  split.
  - intros cmds t0.
    destruct (run_bounded cmds (new t0)) as [_ H]; [simpl; lia|].
    simpl in H. lia.
  - intros ops t0 Hvalid Hlen.
    destruct (run_appends ops (new t0) Hvalid) as (_ & _ & Hh); [simpl; lia|].
    assert (Hes : length (enrichAll ops) = length ops)
      by (unfold enrichAll; apply length_fmap).
    rewrite Hh. simpl in *. rewrite Hes, Hlen.
    replace (500 + 1 - 500) with 1 by lia.
    split; [reflexivity|]. rewrite length_drop, Hes, Hlen. lia.
Qed.

Lemma history_capacity_bound_witness :
  length (drawingHistory
            (run [Append "uuid-1" 1 (sampleDraw "alice" "o1");
                  Undo 2 (sampleUndo "alice" "o1");
                  Redo 3 (sampleRedo "alice"); Clear] (new 0))) <= 500
  /\ drawingHistory (run (appends (sampleBatch 501)) (new 0))
     = drop 1 (enrichAll (sampleBatch 501))
  /\ length (drawingHistory (run (appends (sampleBatch 501)) (new 0))) = 500.
Proof.
  destruct history_capacity_bound as [Hbound Hevict].
  split; [apply Hbound|].
  apply (Hevict (sampleBatch 501) 0%Z).
  - apply (bool_decide_unpack _). vm_compute. exact I.
  - reflexivity.
Defined.

End Capacity.

(** ** Undo by id *)

Section UndoById.
Import DrawingState.
Implicit Types (st : DrawingState.t) (op undoOp : obj) (v : value).

(** C4, as the code has it. An undo that targets the id of a CLEAR_CANVAS
    operation held in the history is accepted like any other: it returns
    true, removes the first entry that carries the id, keeps the order of
    the rest, parks the removed entry in the redo buffer and logs an UNDO
    record. With unique ids the removed entry is the CLEAR_CANVAS operation
    itself. *)
Theorem undo_accepts_clear_canvas (now : Z) undoOp st op :
  op ∈ drawingHistory st ->
  get op "type" = Str "CLEAR_CANVAS" ->
  get undoOp "operationId" = id_of op ->
  exists i removed,
    drawingHistory st !! i = Some removed
    /\ id_of removed = id_of op
    /\ Forall (fun o => id_of o <> id_of op) (take i (drawingHistory st))
    /\ (NoDup (id_of <$> drawingHistory st) -> removed = op)
    /\ recordUndo now undoOp st
       = ({| drawingHistory := delete i (drawingHistory st);
             operationHistory := operationHistory st ++ [undoRecord now undoOp];
             operationStack := operationStack st;
             redoStack := redoStack st ++ [removed];
             maxHistorySize := maxHistorySize st;
             createdAt := createdAt st |}, true).
Proof.
  intros Hin _ Hid.
  destruct (recordUndo_hit now undoOp st) as (i & removed & Hi & Hrid & Hbefore & Hres).
  { apply Exists_exists. exists op. split; [exact Hin | symmetry; exact Hid]. }
  rewrite Hid in Hrid, Hbefore.
  exists i, removed. repeat split; try assumption.
  intros Hnodup. apply list_elem_of_lookup in Hin as [j Hj].
  assert (i = j) as ->.
  { apply (NoDup_lookup _ i j (id_of op) Hnodup);
      rewrite list_lookup_fmap; [rewrite Hi | rewrite Hj]; simpl; congruence. }
  congruence.
Qed.

Lemma undo_accepts_clear_canvas_witness :
  let st := (addOperation "uuid-1" 10 (sampleClear "alice" "c1") (new 0)).1 in
  let op := enrich "uuid-1" 10 (sampleClear "alice" "c1") in
  let undoOp := sampleUndo "alice" "c1" in
  exists i removed,
    drawingHistory st !! i = Some removed
    /\ id_of removed = id_of op
    /\ Forall (fun o => id_of o <> id_of op) (take i (drawingHistory st))
    /\ (NoDup (id_of <$> drawingHistory st) -> removed = op)
    /\ recordUndo 20 undoOp st
       = ({| drawingHistory := delete i (drawingHistory st);
             operationHistory := operationHistory st ++ [undoRecord 20 undoOp];
             operationStack := operationStack st;
             redoStack := redoStack st ++ [removed];
             maxHistorySize := maxHistorySize st;
             createdAt := createdAt st |}, true).
Proof.
  apply (undo_accepts_clear_canvas 20
           (sampleUndo "alice" "c1")
           (addOperation "uuid-1" 10 (sampleClear "alice" "c1") (new 0)).1
           (enrich "uuid-1" 10 (sampleClear "alice" "c1"))).
  - apply (bool_decide_unpack _). vm_compute. exact I.
  - vm_compute. reflexivity.
  - vm_compute. reflexivity.
Defined.

(** C4, as the spec has it, fails: a CLEAR_CANVAS operation passes
    validation and enters the history, and the undo of its id succeeds
    and removes it. *)
Lemma undo_of_clear_canvas_counterexample :
  let st := (addOperation "uuid-1" 10 (sampleClear "alice" "c1") (new 0)).1 in
  let result := recordUndo 20 (sampleUndo "alice" "c1") st in
  (exists op, drawingHistory st = [op]
              /\ get op "type" = Str "CLEAR_CANVAS" /\ id_of op = Str "c1")
  /\ result.2 = true
  /\ drawingHistory result.1 = []
  /\ result <> (st, false).
Proof.
  cbv zeta. split; [|split; [|split]].
  - exists (enrich "uuid-1" 10 (sampleClear "alice" "c1")).
    repeat split; apply (bool_decide_unpack _); vm_compute; exact I.
  - vm_compute. reflexivity.
  - vm_compute. reflexivity.
  - apply (bool_decide_unpack _). vm_compute. exact I.
Qed.








End UndoById.

(** ** Rooms and the connection handler *)

Section Gateway.
Import Server.
Implicit Types (ws : WebSocket) (e : Env) (data : obj) (c : Connection)
         (m : RoomManager.t) (room : DrawingRoom.t).

Lemma room_at_update a f m :
  room_at a (RoomManager.update a f m) = f <$> room_at a m.
Proof. unfold room_at, RoomManager.update. simpl. apply lookup_alter_eq. Qed.

Lemma update_id a f m room :
  room_at a m = Some room -> f room = room -> RoomManager.update a f m = m.
Proof.
  intros Hroom Hf. destruct m as [heap rooms].
  unfold RoomManager.update, room_at in *. simpl in *. f_equal.
  apply alter_id. intros x Hx. congruence.
Qed.

Lemma set_drawingState_same room :
  DrawingRoom.set_drawingState (DrawingRoom.drawingState room) room = room.
Proof. destruct room. reflexivity. Qed.

(** The object [handleDraw] hands to the log has no property [y1]: the
    literal names [x1] twice. Validation therefore rejects it. *)
Lemma drawOperation_invalid c data :
  DrawingState.validateOperation (drawOperation c data) = false.
Proof. reflexivity. Qed.

Lemma eraseFields_valid c data :
  DrawingState.validateOperation (eraseFields c data) = true.
Proof. reflexivity. Qed.

(** C1, as the code has it: whatever a DRAW message carries and whatever
    the state, [handleDraw] leaves the history of every room as it was. *)
Theorem handleDraw_records_nothing ws e data c m :
  histories (handleDraw ws e data c m).1.2 = histories m.
Proof.
  unfold handleDraw. destruct (currentRoom c) as [a|]; [|reflexivity].
  destruct (negb _); [reflexivity|]. cbn [fst snd].
  unfold histories, RoomManager.update. simpl.
  apply map_eq. intros i. rewrite !lookup_fmap, lookup_alter.
  case_decide; [subst i|reflexivity].
  destruct (RoomManager.heap m !! a) as [room|]; [|reflexivity].
  cbn [fmap option_fmap option_map]. apply (f_equal Some).
  unfold DrawingRoom.recordOperation, DrawingRoom.getDrawingHistory.
  rewrite addOperation_invalid by apply drawOperation_invalid.
  reflexivity.
Qed.

(** The color [addClient] computes for the join that finds the index at
    [k] is the palette entry [k mod 12]. *)
Lemma paletteColor_round_robin (k : nat) :
  exists color, USER_COLORS !! (k mod 12) = Some color
                /\ DrawingRoom.paletteColor k = Str color.
Proof.
  unfold DrawingRoom.paletteColor.
  destruct (lookup_lt_is_Some_2 USER_COLORS (k mod 12)) as [color Hc].
  { change (length USER_COLORS) with 12. apply Nat.mod_upper_bound. discriminate. }
  exists color. change (length USER_COLORS) with 12. rewrite Hc. split; reflexivity.
Qed.

(** In the scope of [addClient] the names [userId], [username] and
    [assignedColor] are bound, and [color] is not. *)
Lemma addClient_scope_bound (userId username assignedColor : value) :
  ident (DrawingRoom.addClient_scope userId username assignedColor) "userId"
  = Return userId
  /\ ident (DrawingRoom.addClient_scope userId username assignedColor) "username"
     = Return username
  /\ ident (DrawingRoom.addClient_scope userId username assignedColor) "assignedColor"
     = Return assignedColor.
Proof. repeat split; reflexivity. Qed.

Lemma addClient_scope_color (userId username assignedColor : value) :
  ident (DrawingRoom.addClient_scope userId username assignedColor) "color"
  = Throw "ReferenceError: color is not defined".
Proof. reflexivity. Qed.

(** C2, as the code has it: [addClient] advances the color index and then
    throws on the unbound identifier [color]; it returns no participant
    info, registers no connection and does not touch the activity time. *)
Theorem addClient_throws (now : Z) ws (userId username : value) room :
  DrawingRoom.addClient now ws userId username room
  = (DrawingRoom.set_userColorIndex (S (DrawingRoom.userColorIndex room)) room,
     Throw "ReferenceError: color is not defined").
Proof.
  unfold DrawingRoom.addClient. cbv zeta.
  destruct (addClient_scope_bound userId username
              (DrawingRoom.paletteColor (DrawingRoom.userColorIndex room)))
    as (Huser & Hname & _).
  rewrite Huser, Hname, addClient_scope_color. reflexivity.
Qed.

Lemma Map_get_delete {K V : Type} `{EqDecision K} (k : K) (l : list (K * V)) :
  Map_get k (Map_delete k l) = None.
Proof.
  unfold Map_delete. induction l as [|[k' v] l IH]; [reflexivity|].
  rewrite filter_cons. simpl. case_decide as Hk; [|exact IH].
  simpl. destruct (decide (k' = k)); [contradiction | exact IH].
Qed.

Lemma removeClient_last ws info room :
  DrawingRoom.clients room = [(ws, info)] ->
  DrawingRoom.removeClient ws room = (DrawingRoom.set_clients [] room, Some info).
Proof.
  intros Hclients. unfold DrawingRoom.removeClient, Map_delete.
  rewrite Hclients. simpl. rewrite decide_True by reflexivity.
  rewrite filter_cons. simpl. rewrite decide_False by (intros H; apply H; reflexivity).
  reflexivity.
Qed.

(** [broadcast] calls [send] once on each registered connection that is
    open and is not the excluded one, in joining order; a [send] that
    throws does not stop the loop. *)
Lemma broadcast_spec (net : Net) (msg : message) (excludeWs : option WebSocket) room :
  DrawingRoom.broadcast net msg excludeWs room
  = (fun p => try_send net p msg)
      <$> filter (fun p => isOpen net p /\ Some p <> excludeWs) (members room).
Proof.
  unfold DrawingRoom.broadcast, members.
  induction (DrawingRoom.clients room) as [|[p info] l IH]; [reflexivity|].
  cbn [flat_map fmap list_fmap fst]. rewrite filter_cons, IH. unfold isOpen at 1.
  destruct (Z.eqb_spec (readyState net p) 1) as [Hopen|Hclosed]; cbn [andb].
  - case_bool_decide as Hex.
    + rewrite decide_True by (split; assumption). reflexivity.
    + rewrite decide_False by (intros [_ ?]; contradiction). reflexivity.
  - rewrite decide_False by (intros [? _]; contradiction). reflexivity.
Qed.

Lemma broadcast_excluding (net : Net) (msg : message) ws room :
  DrawingRoom.broadcast net msg (Some ws) room
  = (fun p => try_send net p msg)
      <$> filter (fun p => isOpen net p /\ p <> ws) (members room).
Proof.
  rewrite broadcast_spec. f_equal. apply list_filter_iff. intros p.
  split; intros [Ho Hne]; (split; [exact Ho | congruence]).
Qed.

Lemma broadcastAll_spec (net : Net) (msg : message) room :
  DrawingRoom.broadcastAll net msg room
  = (fun p => try_send net p msg) <$> filter (isOpen net) (members room).
Proof.
  unfold DrawingRoom.broadcastAll. rewrite broadcast_spec. f_equal.
  apply list_filter_iff. intros p. split; [intros [Ho _]; exact Ho|].
  intros Ho. split; [exact Ho | discriminate].
Qed.

Lemma recipients_try_send (net : Net) (msg : message) (l : list WebSocket) :
  recipients ((fun p => try_send net p msg) <$> l) = l.
Proof.
  unfold recipients. rewrite <- list_fmap_compose.
  induction l as [|p l IH]; [reflexivity|]. cbn [fmap list_fmap].
  rewrite IH. unfold compose, try_send. destruct (sendThrows net p); reflexivity.
Qed.

Lemma truthy_userId c : userId c <> "" -> negb (truthy (Str (userId c))) = false.
Proof.
  intros Hne. simpl. apply String.eqb_neq in Hne. rewrite Hne. reflexivity.
Qed.

Lemma delivers_sends (net : Net) (msg : obj) (to : list WebSocket) :
  delivers net msg to ((fun p => try_send net p (Flat msg)) <$> to).
Proof.
  unfold delivers. split; [apply recipients_try_send|]. split.
  - intros p Hp Hsend. apply list_elem_of_fmap. exists p. split; [|exact Hp].
    unfold try_send. rewrite Hsend. reflexivity.
  - intros ev Hev. apply list_elem_of_fmap in Hev as (p & -> & _). unfold try_send.
    destruct (sendThrows net p) eqn:Hs; cbn [target]; [right; split|left]; auto.
Qed.

Lemma drawRelay_relays c data :
  relays "DRAW" ["x0"; "y0"; "x1"; "y1"; "color"; "size"; "timestamp"; "operationId"]
         (userId c) data (drawRelay c data).
Proof. repeat split. repeat constructor. Qed.

Lemma eraseFields_relays c data :
  relays "ERASE" ["x0"; "y0"; "x1"; "y1"; "size"; "timestamp"; "operationId"]
         (userId c) data (eraseFields c data).
Proof. repeat split. repeat constructor. Qed.

Lemma undoNotice_relays c data :
  relays "UNDO" ["operationId"; "timestamp"] (userId c) data (undoNotice c data).
Proof. repeat split. repeat constructor. Qed.

Lemma redoNotice_relays c data :
  relays "REDO" ["operationId"; "timestamp"] (userId c) data (redoNotice c data).
Proof. repeat split. repeat constructor. Qed.

Lemma clearNotice_relays c data :
  relays "CLEAR_CANVAS" ["timestamp"] (userId c) data (clearNotice c data).
Proof. repeat split. repeat constructor. Qed.

(** C8. Sender exclusion: for a participant on connection [ws] of a
    room, a DRAW or an ERASE message is relayed, with its type, the
    sender's id and the coordinates, style, timestamp and operation id it
    came with, to exactly the open connections of the room other than
    [ws]: each of them whose [send] does not throw is sent it, and [send]
    is never called on [ws]. A successful UNDO or REDO and a CLEAR_CANVAS
    are announced, with their type, the sender's id and the request's
    operation id and timestamp, to exactly the open connections of the
    room, [ws] included when it is open. *)
Theorem broadcast_sender_exclusion ws e data c m a room :
  currentRoom c = Some a ->
  room_at a m = Some room ->
  userId c <> "" ->
  let others := filter (fun p => isOpen (net e) p /\ p <> ws) (members room) in
  let everyone := filter (isOpen (net e)) (members room) in
  (exists msg,
      relays "DRAW" ["x0"; "y0"; "x1"; "y1"; "color"; "size"; "timestamp"; "operationId"]
             (userId c) data msg
      /\ delivers (net e) msg others (handleDraw ws e data c m).2)
  /\ (exists msg,
        relays "ERASE" ["x0"; "y0"; "x1"; "y1"; "size"; "timestamp"; "operationId"]
               (userId c) data msg
        /\ delivers (net e) msg others (handleErase ws e data c m).2)
  /\ ((DrawingState.recordUndo (now e) data (DrawingRoom.drawingState room)).2 = true ->
      exists msg,
        relays "UNDO" ["operationId"; "timestamp"] (userId c) data msg
        /\ delivers (net e) msg everyone (handleUndo ws e data c m).2)
  /\ ((DrawingState.recordRedo (now e) data (DrawingRoom.drawingState room)).2 = true ->
      exists msg,
        relays "REDO" ["operationId"; "timestamp"] (userId c) data msg
        /\ delivers (net e) msg everyone (handleRedo ws e data c m).2)
  /\ (exists msg,
        relays "CLEAR_CANVAS" ["timestamp"] (userId c) data msg
        /\ delivers (net e) msg everyone (handleClearCanvas ws e data c m).2)
  /\ (ws ∉ others)
  /\ (ws ∈ members room -> isOpen (net e) ws -> ws ∈ everyone).
Proof.
  intros Hc Hroom Hid others everyone.
  repeat match goal with |- _ /\ _ => split end.
  - exists (drawRelay c data). split; [apply drawRelay_relays|].
    unfold handleDraw. rewrite Hc, truthy_userId by exact Hid. cbn [snd].
    rewrite room_at_update, Hroom. cbn [fmap option_fmap option_map from_option].
    rewrite broadcast_excluding. apply delivers_sends.
  - exists (eraseFields c data). split; [apply eraseFields_relays|].
    unfold handleErase. rewrite Hc, truthy_userId by exact Hid. cbn [snd].
    rewrite room_at_update, Hroom. cbn [fmap option_fmap option_map from_option].
    rewrite broadcast_excluding. apply delivers_sends.
  - intros Hok. exists (undoNotice c data). split; [apply undoNotice_relays|].
    unfold handleUndo. rewrite Hc, Hroom.
    destruct (DrawingState.recordUndo _ _ _) as [ds ok]. cbn [snd] in Hok. subst ok.
    cbn [snd]. rewrite broadcastAll_spec. apply delivers_sends.
  - intros Hok. exists (redoNotice c data). split; [apply redoNotice_relays|].
    unfold handleRedo. rewrite Hc, Hroom.
    destruct (DrawingState.recordRedo _ _ _) as [ds ok]. cbn [snd] in Hok. subst ok.
    cbn [snd]. rewrite broadcastAll_spec. apply delivers_sends.
  - exists (clearNotice c data). split; [apply clearNotice_relays|].
    unfold handleClearCanvas. rewrite Hc. cbn [snd].
    rewrite room_at_update, Hroom. cbn [fmap option_fmap option_map from_option].
    rewrite broadcastAll_spec. apply delivers_sends.
  - unfold others. rewrite list_elem_of_filter. intros [[_ Hne] _]. apply Hne. reflexivity.
  - intros Hin Hopen. unfold everyone. apply list_elem_of_filter. split; assumption.
Qed.

(** C9. Logical misses: when no entry of the room's history carries the
    requested id, [recordUndo] returns false and leaves the whole log
    (history, redo buffer, audit trail) as it was, and [handleUndo]
    changes nothing and sends nothing; when the redo buffer is empty the
    same holds of [recordRedo] and [handleRedo]. *)
Theorem logical_miss_changes_nothing ws e data c m a room :
  currentRoom c = Some a ->
  room_at a m = Some room ->
  (Forall (fun op => id_of op <> get data "operationId")
          (DrawingState.drawingHistory (DrawingRoom.drawingState room)) ->
   DrawingState.recordUndo (now e) data (DrawingRoom.drawingState room)
   = (DrawingRoom.drawingState room, false)
   /\ handleUndo ws e data c m = (c, m, []))
  /\ (DrawingState.redoStack (DrawingRoom.drawingState room) = [] ->
      DrawingState.recordRedo (now e) data (DrawingRoom.drawingState room)
      = (DrawingRoom.drawingState room, false)
      /\ handleRedo ws e data c m = (c, m, [])).
Proof.
  intros Hc Hroom. split.
  - intros Hmiss. pose proof (recordUndo_miss (now e) data _ Hmiss) as Hres.
    split; [exact Hres|].
    unfold handleUndo. rewrite Hc, Hroom, Hres.
    rewrite set_drawingState_same.
    rewrite (update_id a (fun _ => room) m room Hroom eq_refl). reflexivity.
  - intros Hempty. pose proof (recordRedo_empty (now e) data _ Hempty) as Hres.
    split; [exact Hres|].
    unfold handleRedo. rewrite Hc, Hroom, Hres.
    rewrite set_drawingState_same.
    rewrite (update_id a (fun _ => room) m room Hroom eq_refl). reflexivity.
Qed.

Lemma broadcast_sender_exclusion_witness :
  let e := sampleEnv 120 in
  let c := connectionOfAlice in
  let m := managerOf roomOfThree in
  let data := sampleUndo "uuid-alice" "o1" in
  members roomOfThree = [1; 2; 3]
  /\ (exists msg, get msg "type" = Str "DRAW"
                  /\ Sent 2 (Flat msg) ∈ (handleDraw 1 e data c m).2
                  /\ recipients (handleDraw 1 e data c m).2 = [2])
  /\ (exists msg, get msg "type" = Str "ERASE"
                  /\ Sent 2 (Flat msg) ∈ (handleErase 1 e data c m).2
                  /\ recipients (handleErase 1 e data c m).2 = [2])
  /\ (exists msg, get msg "type" = Str "UNDO"
                  /\ Sent 1 (Flat msg) ∈ (handleUndo 1 e data c m).2
                  /\ recipients (handleUndo 1 e data c m).2 = [1; 2])
  /\ (exists msg, get msg "type" = Str "REDO"
                  /\ Sent 1 (Flat msg) ∈ (handleRedo 1 e data c m).2
                  /\ recipients (handleRedo 1 e data c m).2 = [1; 2])
  /\ (exists msg, get msg "type" = Str "CLEAR_CANVAS"
                  /\ Sent 1 (Flat msg) ∈ (handleClearCanvas 1 e data c m).2
                  /\ recipients (handleClearCanvas 1 e data c m).2 = [1; 2]).
Proof.
  pose proof (broadcast_sender_exclusion 1 (sampleEnv 120)
                (sampleUndo "uuid-alice" "o1") connectionOfAlice
                (managerOf roomOfThree) 0 roomOfThree) as H.
  cbv zeta in *.
  destruct H as (HD & HE & HU & HR & HC & _ & _);
    [vm_compute; reflexivity | vm_compute; reflexivity | discriminate |].
  destruct HD as (msgD & (HtD & _) & (HrD & HsD & _)).
  destruct HE as (msgE & (HtE & _) & (HrE & HsE & _)).
  destruct HU as (msgU & (HtU & _) & (HrU & HsU & _)); [vm_compute; reflexivity|].
  destruct HR as (msgR & (HtR & _) & (HrR & HsR & _)); [vm_compute; reflexivity|].
  destruct HC as (msgC & (HtC & _) & (HrC & HsC & _)).
  split; [reflexivity|].
  split; [exists msgD|split; [exists msgE|split; [exists msgU|split; [exists msgR|exists msgC]]]].
  - split; [exact HtD|]. split; [|exact HrD].
    apply HsD; [apply (bool_decide_unpack _); vm_compute; exact I | reflexivity].
  - split; [exact HtE|]. split; [|exact HrE].
    apply HsE; [apply (bool_decide_unpack _); vm_compute; exact I | reflexivity].
  - split; [exact HtU|]. split; [|exact HrU].
    apply HsU; [apply (bool_decide_unpack _); vm_compute; exact I | reflexivity].
  - split; [exact HtR|]. split; [|exact HrR].
    apply HsR; [apply (bool_decide_unpack _); vm_compute; exact I | reflexivity].
  - split; [exact HtC|]. split; [|exact HrC].
    apply HsC; [apply (bool_decide_unpack _); vm_compute; exact I | reflexivity].
Defined.

Lemma logical_miss_changes_nothing_witness :
  let e := sampleEnv 120 in
  let c := connectionOfAlice in
  let m := managerOf roomOfAlice in
  let data := sampleUndo "uuid-alice" "no-such-op" in
  (DrawingState.recordUndo 120 data (DrawingRoom.drawingState roomOfAlice)
   = (DrawingRoom.drawingState roomOfAlice, false)
   /\ handleUndo 1 e data c m = (c, m, []))
  /\ (DrawingState.recordRedo 120 data (DrawingRoom.drawingState roomOfAlice)
      = (DrawingRoom.drawingState roomOfAlice, false)
      /\ handleRedo 1 e data c m = (c, m, [])).
Proof.
  destruct (logical_miss_changes_nothing 1 (sampleEnv 120)
              (sampleUndo "uuid-alice" "no-such-op") connectionOfAlice
              (managerOf roomOfAlice) 0 roomOfAlice) as [HU HR];
    [vm_compute; reflexivity | vm_compute; reflexivity |].
  split.
  - apply HU. apply (bool_decide_unpack _). vm_compute. exact I.
  - apply HR. vm_compute. reflexivity.
Defined.

(** The periodic sweep, on a directory of one room: the room is deleted
    when it is empty and its last activity is more than an hour old, and
    kept otherwise. *)
Lemma cleanup_single_room (now : Z) room :
  RoomManager.cleanup now (managerOf room)
  = if DrawingRoom.isEmpty room
       && (DrawingRoom.lastActivityAt room <? now - 3600000)%Z
    then RoomManager.deleteRoom (DrawingRoom.id room) (managerOf room)
    else managerOf room.
Proof.
  unfold RoomManager.cleanup, managerOf. cbn [RoomManager.rooms foldl snd fst RoomManager.heap].
  rewrite lookup_singleton_eq. reflexivity.
Qed.

(** The scenario of the spec on the code. Alice connects and asks to join
    room "r1": the room is created, the join throws inside [addClient]
    and she is sent ERROR, not LOAD_HISTORY; she is not registered. Her
    stroke o1 is then dropped and the history stays empty, while an
    erase segment with the same geometry is recorded. *)
Example scenario_join_then_draw :
  let e := sampleEnv 120 in
  let joined := onMessage 1 e (joinR1 "Alice") (connect "uuid-alice" "User-1")
                          RoomManager.new in
  let drawn := onMessage 1 e drawO1 joined.1.1 joined.1.2 in
  let erased := onMessage 1 e (<["type" := Str "ERASE"]> drawO1) drawn.1.1 drawn.1.2 in
  joined.2 = [Sent 1 (ERROR "Server failed to process your message")]
  /\ currentRoom joined.1.1 = Some 0
  /\ (members <$> RoomManager.getRoom (Str "r1") joined.1.2) = Some []
  /\ (DrawingRoom.userColorIndex <$> RoomManager.getRoom (Str "r1") joined.1.2) = Some 1
  /\ histories drawn.1.2 !! 0 = Some []
  /\ (length <$> histories erased.1.2 !! 0) = Some 1.
Proof. cbv zeta. repeat split; apply (bool_decide_unpack _); vm_compute; exact I. Qed.

End Gateway.

(** ** Further properties of the operation log *)

Section LogMore.
Import DrawingState.
Implicit Types (st : DrawingState.t) (op operation undoOp redoOp : obj).

Lemma compressTarget_500 st : maxHistorySize st = 500 -> compressTarget st = 350.
Proof. intros H. unfold compressTarget. rewrite H. reflexivity. Qed.

Lemma compress_history st :
  maxHistorySize st = 500 ->
  drawingHistory (compress st).1
  = drop (length (drawingHistory st) - 350) (drawingHistory st).
Proof.
  intros HM. unfold compress. cbn [fst drawingHistory].
  rewrite (compressTarget_500 st HM). unfold slice_last. cbn [Nat.eqb].
  destruct (Nat.ltb_spec 350 (length (drawingHistory st))) as [Hlt|Hge].
  - reflexivity.
  - replace (length (drawingHistory st) - 350) with 0 by lia. reflexivity.
Qed.

Lemma compress_small st :
  maxHistorySize st = 500 ->
  length (drawingHistory st) <= 350 ->
  compress st
  = (st, {| originalSize := length (drawingHistory st);
            newSize := length (drawingHistory st);
            operationsRemoved := length (drawingHistory st) - length (drawingHistory st) |}).
Proof.
  intros HM Hle. unfold compress. rewrite (compressTarget_500 st HM).
  destruct (Nat.ltb_spec 350 (length (drawingHistory st))); [lia|].
  destruct st. reflexivity.
Qed.

(** X1. [compress] keeps the newest 350 operations of the history, in
    order, and drops the older ones; it reports the sizes before and after
    and their difference, and leaves the redo buffer, the audit trail and
    the operation stack alone. A history of at most 350 operations is left
    as it is. *)
Theorem compress_keeps_newest st :
  maxHistorySize st = 500 ->
  drawingHistory (compress st).1
  = drop (length (drawingHistory st) - 350) (drawingHistory st)
  /\ length (drawingHistory (compress st).1) = min (length (drawingHistory st)) 350
  /\ (compress st).2
     = {| originalSize := length (drawingHistory st);
          newSize := min (length (drawingHistory st)) 350;
          operationsRemoved := length (drawingHistory st) - 350 |}
  /\ (length (drawingHistory st) <= 350 -> (compress st).1 = st)
  /\ redoStack (compress st).1 = redoStack st
  /\ operationHistory (compress st).1 = operationHistory st
  /\ operationStack (compress st).1 = operationStack st.
Proof.
  intros HM. pose proof (compress_history st HM) as Hh.
  assert (Hlen : length (drawingHistory (compress st).1)
                 = min (length (drawingHistory st)) 350)
    by (rewrite Hh, length_drop; lia).
  split; [exact Hh|]. split; [exact Hlen|]. split.
  { unfold compress in *. cbn [fst snd drawingHistory] in *. rewrite Hlen.
    f_equal. lia. }
  split.
  { intros Hle. destruct st as [h a s r M c]. unfold compress in *.
    cbn [fst snd drawingHistory] in *. f_equal. rewrite Hh.
    replace (length h - 350) with 0 by lia. reflexivity. }
  repeat split; reflexivity.
Qed.

Lemma compress_keeps_newest_witness :
  let st := run (appends (sampleBatch 400)) (new 0) in
  drawingHistory (compress st).1
  = drop (length (drawingHistory st) - 350) (drawingHistory st)
  /\ length (drawingHistory (compress st).1) = min (length (drawingHistory st)) 350
  /\ (compress st).2
     = {| originalSize := length (drawingHistory st);
          newSize := min (length (drawingHistory st)) 350;
          operationsRemoved := length (drawingHistory st) - 350 |}
  /\ (length (drawingHistory st) <= 350 -> (compress st).1 = st)
  /\ redoStack (compress st).1 = redoStack st
  /\ operationHistory (compress st).1 = operationHistory st
  /\ operationStack (compress st).1 = operationStack st.
Proof.
  apply (compress_keeps_newest (run (appends (sampleBatch 400)) (new 0))).
  vm_compute. reflexivity.
Defined.

(** X2. [compress] is idempotent: a second call right after the first
    removes nothing and reports so. *)
Theorem compress_idempotent st :
  maxHistorySize st = 500 ->
  (compress (compress st).1).1 = (compress st).1
  /\ operationsRemoved (compress (compress st).1).2 = 0.
Proof.
  intros HM.
  assert (Hlen : length (drawingHistory (compress st).1) <= 350)
    by (rewrite (compress_history st HM), length_drop; lia).
  rewrite (compress_small (compress st).1 HM Hlen). cbn [fst snd operationsRemoved].
  split; [reflexivity | lia].
Qed.

Lemma compress_idempotent_witness :
  let st := run (appends (sampleBatch 400)) (new 0) in
  (compress (compress st).1).1 = (compress st).1
  /\ operationsRemoved (compress (compress st).1).2 = 0.
Proof.
  apply (compress_idempotent (run (appends (sampleBatch 400)) (new 0))).
  vm_compute. reflexivity.
Defined.

(** X3. Export and import: importing what a log exports into another log
    gives that log the history and the audit trail of the first, and
    leaves its own redo buffer, operation stack and size bound in place;
    importing a log's own export, or data with neither array, changes
    nothing. *)
Theorem import_of_export (now : Z) (src dst : DrawingState.t) :
  import (importable (export now src)) dst
  = {| drawingHistory := drawingHistory src;
       operationHistory := operationHistory src;
       operationStack := operationStack dst;
       redoStack := redoStack dst;
       maxHistorySize := maxHistorySize dst;
       createdAt := createdAt dst |}
  /\ import (importable (export now src)) src = src
  /\ import {| im_drawingHistory := None; im_operationHistory := None |} dst = dst.
Proof.
  repeat split; [destruct src | destruct dst]; reflexivity.
Qed.

Lemma addOperation_length uuid now operation st :
  validateOperation operation = true ->
  length (drawingHistory (addOperation uuid now operation st).1)
  = if length (drawingHistory st) <? maxHistorySize st
    then S (length (drawingHistory st)) else length (drawingHistory st).
Proof.
  intros Hv. rewrite addOperation_valid by exact Hv. cbn [fst drawingHistory].
  rewrite length_app. cbn [length].
  destruct (Nat.ltb_spec (maxHistorySize st) (length (drawingHistory st) + 1)) as [H1|H1];
    destruct (Nat.ltb_spec (length (drawingHistory st)) (maxHistorySize st)) as [H2|H2];
    try lia.
  - rewrite tail_drop_1, length_drop, length_app. cbn [length]. lia.
  - rewrite length_app. cbn [length]. lia.
Qed.

(** X4. A valid append lengthens a history below the size bound by one
    and leaves the length of a history at or above the bound as it is;
    when the bound is positive the appended operation, enriched, is the
    last entry. *)
Theorem append_length_and_last uuid now operation st :
  validateOperation operation = true ->
  0 < maxHistorySize st ->
  length (drawingHistory (addOperation uuid now operation st).1)
  = (if length (drawingHistory st) <? maxHistorySize st
     then S (length (drawingHistory st)) else length (drawingHistory st))
  /\ last (drawingHistory (addOperation uuid now operation st).1)
     = Some (enrich uuid now operation).
Proof.
  intros Hv HM. split; [apply addOperation_length; exact Hv|].
  rewrite addOperation_valid by exact Hv. cbn [fst drawingHistory].
  destruct (Nat.ltb_spec (maxHistorySize st)
              (length (drawingHistory st ++ [enrich uuid now operation]))) as [H|H].
  - rewrite length_app in H. cbn [length] in H.
    destruct (drawingHistory st) as [|x h]; [cbn [length] in H; lia|].
    cbn [app tail]. apply last_snoc.
  - apply last_snoc.
Qed.

Lemma append_length_and_last_witness :
  let st := run (appends (sampleBatch 500)) (new 0) in
  length (drawingHistory (addOperation "uuid-9" 900 (sampleErase "bob" "o-new") st).1)
  = (if length (drawingHistory st) <? maxHistorySize st
     then S (length (drawingHistory st)) else length (drawingHistory st))
  /\ last (drawingHistory (addOperation "uuid-9" 900 (sampleErase "bob" "o-new") st).1)
     = Some (enrich "uuid-9" 900 (sampleErase "bob" "o-new")).
Proof.
  apply (append_length_and_last "uuid-9" 900 (sampleErase "bob" "o-new")
           (run (appends (sampleBatch 500)) (new 0))).
  - vm_compute. reflexivity.
  - vm_compute. lia.
Defined.

Lemma run_appends_length ops st :
  allValid ops ->
  maxHistorySize st <= length (drawingHistory st) ->
  maxHistorySize (run (appends ops) st) = maxHistorySize st
  /\ length (drawingHistory (run (appends ops) st)) = length (drawingHistory st).
Proof.
  revert st. induction ops as [|[[u t] op] ops IH]; intros st Hvalid Hover.
  - split; reflexivity.
  - inversion Hvalid as [|? ? Hop Hrest]; subst. simpl in Hop.
    unfold run, appends in *. cbn [fmap list_fmap foldl step].
    pose proof (addOperation_length u t op st Hop) as Hlen.
    assert (HM : maxHistorySize (addOperation u t op st).1 = maxHistorySize st)
      by (rewrite addOperation_valid by exact Hop; reflexivity).
    destruct (Nat.ltb_spec (length (drawingHistory st)) (maxHistorySize st)); [lia|].
    destruct (IH (addOperation u t op st).1 Hrest) as [HM' Hlen']; [lia|].
    split; [congruence | lia].
Qed.

(** X5. [import] does not apply the size bound, and a history imported at
    or above the bound never comes back under it by appending: after any
    batch of valid appends it still has the imported length. *)
Theorem imported_history_keeps_its_length (data : ImportData) (l : list obj) ops st :
  im_drawingHistory data = Some l ->
  maxHistorySize st <= length l ->
  allValid ops ->
  drawingHistory (import data st) = l
  /\ length (drawingHistory (run (appends ops) (import data st))) = length l.
Proof.
  intros Hdata Hover Hvalid.
  assert (Hh : drawingHistory (import data st) = l)
    by (unfold import; cbn [drawingHistory]; rewrite Hdata; reflexivity).
  split; [exact Hh|].
  destruct (run_appends_length ops (import data st) Hvalid) as [_ Hlen].
  - rewrite Hh. exact Hover.
  - rewrite Hlen, Hh. reflexivity.
Qed.

Lemma imported_history_keeps_its_length_witness :
  let l := enrichAll (sampleBatch 600) in
  let data := {| im_drawingHistory := Some l; im_operationHistory := None |} in
  drawingHistory (import data (new 0)) = l
  /\ length (drawingHistory (run (appends (sampleBatch 3)) (import data (new 0))))
     = length l.
Proof.
  apply (imported_history_keeps_its_length
           {| im_drawingHistory := Some (enrichAll (sampleBatch 600));
              im_operationHistory := None |}
           (enrichAll (sampleBatch 600)) (sampleBatch 3) (new 0)).
  - reflexivity.
  - vm_compute. lia.
  - apply (bool_decide_unpack _). vm_compute. exact I.
Defined.

Lemma step_operationStack st cmd :
  cmd <> Clear ->
  length (operationStack (step st cmd))
  = length (operationStack st) + length (filter validAppend [cmd]).
Proof.
  intros Hc. destruct cmd as [u t op|t undoOp|t redoOp|]; [| | |contradiction].
  - cbn [step]. rewrite filter_cons.
    destruct (validateOperation op) eqn:Hv.
    + rewrite decide_True by exact Hv.
      rewrite addOperation_valid by exact Hv. cbn [fst operationStack].
      rewrite filter_nil, length_app. reflexivity.
    + rewrite decide_False by (cbn [validAppend]; congruence).
      rewrite addOperation_invalid by exact Hv. rewrite filter_nil. cbn. lia.
  - cbn [step]. rewrite filter_cons, decide_False, filter_nil by (intros []).
    unfold recordUndo. destruct (findIndex _ _); [|cbn; lia].
    destruct (_ !! _); cbn; lia.
  - cbn [step]. rewrite filter_cons, decide_False, filter_nil by (intros []).
    unfold recordRedo. destruct (pop _) as [[? ?]|]; cbn; lia.
Qed.

(** X6. The operation stack is never trimmed and never popped: across any
    commands other than a clear it grows by exactly the number of valid
    appends, whatever the size bound makes of the history. *)
Theorem operationStack_counts_valid_appends (cmds : list command) st :
  Forall (fun cmd => cmd <> Clear) cmds ->
  length (operationStack (run cmds st))
  = length (operationStack st) + length (filter validAppend cmds).
Proof.
  revert st. induction cmds as [|cmd cmds IH]; intros st Hcmds.
  - cbn. lia.
  - inversion Hcmds as [|? ? Hc Hrest]; subst. unfold run in *. cbn [foldl].
    rewrite (IH _ Hrest), (step_operationStack st cmd Hc).
    rewrite !filter_cons, filter_nil.
    destruct (decide (validAppend cmd)); cbn [length]; lia.
Qed.

Lemma operationStack_counts_valid_appends_witness :
  length (operationStack (run (appends (sampleBatch 501)) (new 0))) = 501
  /\ length (drawingHistory (run (appends (sampleBatch 501)) (new 0))) = 500.
Proof.
  split.
  - rewrite (operationStack_counts_valid_appends (appends (sampleBatch 501)) (new 0)).
    + vm_compute. reflexivity.
    + apply (bool_decide_unpack _). vm_compute. exact I.
  - vm_compute. reflexivity.
Defined.


Lemma enrich_other uuid now operation (k : string) :
  k <> "id" -> k <> "addedAt" ->
  enrich uuid now operation !! k = operation !! k.
Proof.
  intros Hid Hat. unfold enrich.
  rewrite lookup_insert_ne by congruence. rewrite lookup_insert_ne by congruence.
  reflexivity.
Qed.





Lemma recordUndo_success now undoOp st :
  (recordUndo now undoOp st).2 = true ->
  exists i removed,
    drawingHistory st !! i = Some removed
    /\ id_of removed = get undoOp "operationId"
    /\ Forall (fun op => id_of op <> get undoOp "operationId")
              (take i (drawingHistory st))
    /\ recordUndo now undoOp st
       = ({| drawingHistory := delete i (drawingHistory st);
             operationHistory := operationHistory st ++ [undoRecord now undoOp];
             operationStack := operationStack st;
             redoStack := redoStack st ++ [removed];
             maxHistorySize := maxHistorySize st;
             createdAt := createdAt st |}, true).
Proof.
  intros Hok.
  destruct (decide (Exists (fun op => id_of op = get undoOp "operationId")
                           (drawingHistory st))) as [Hhit|Hmiss].
  - apply recordUndo_hit. exact Hhit.
  - apply not_Exists_Forall in Hmiss; [|intros ?; apply _].
    rewrite recordUndo_miss in Hok; [discriminate | exact Hmiss].
Qed.

(** X8. A successful undo followed by a redo gives back the same
    operations: the redo succeeds, the history is a permutation of the one
    before the undo (the undone operation now being last), the redo buffer
    is as before, and the audit trail has two more records. *)
Theorem undo_then_redo_restores_operations (now now' : Z) undoOp redoOp st :
  (recordUndo now undoOp st).2 = true ->
  (recordRedo now' redoOp (recordUndo now undoOp st).1).2 = true
  /\ drawingHistory (recordRedo now' redoOp (recordUndo now undoOp st).1).1
     ≡ₚ drawingHistory st
  /\ (id_of <$> last (drawingHistory (recordRedo now' redoOp (recordUndo now undoOp st).1).1))
     = Some (get undoOp "operationId")
  /\ redoStack (recordRedo now' redoOp (recordUndo now undoOp st).1).1 = redoStack st
  /\ length (operationHistory (recordRedo now' redoOp (recordUndo now undoOp st).1).1)
     = length (operationHistory st) + 2.
Proof.
  intros Hok.
  destruct (recordUndo_success now undoOp st Hok) as (i & x & Hi & Hid & _ & Hres).
  rewrite Hres. cbn [fst].
  erewrite recordRedo_snoc by reflexivity. cbn [fst snd drawingHistory redoStack operationHistory].
  repeat split.
  - rewrite (delete_Permutation _ _ _ Hi) at 2. symmetry. apply Permutation_cons_append.
  - rewrite last_snoc. cbn. rewrite Hid. reflexivity.
  - rewrite !length_app. cbn. lia.
Qed.

Lemma undo_then_redo_restores_operations_witness :
  let st := run (appends (sampleBatch 3)) (new 0) in
  let undone := (recordUndo 10 (numberedUndo 1) st).1 in
  (recordRedo 11 (sampleRedo "alice") undone).2 = true
  /\ drawingHistory (recordRedo 11 (sampleRedo "alice") undone).1 ≡ₚ drawingHistory st
  /\ (id_of <$> last (drawingHistory (recordRedo 11 (sampleRedo "alice") undone).1))
     = Some (get (numberedUndo 1) "operationId")
  /\ redoStack (recordRedo 11 (sampleRedo "alice") undone).1 = redoStack st
  /\ length (operationHistory (recordRedo 11 (sampleRedo "alice") undone).1)
     = length (operationHistory st) + 2.
Proof.
  apply (undo_then_redo_restores_operations 10 11 (numberedUndo 1) (sampleRedo "alice")
           (run (appends (sampleBatch 3)) (new 0))).
  vm_compute. reflexivity.
Defined.

(** X9. Undoing the newest operation and redoing it restores the history
    exactly: when the last entry carries the requested id and no earlier
    entry does, undo leaves the entries before it and redo puts it back
    where it was. *)
Theorem undo_redo_of_newest_is_identity (now now' : Z) undoOp redoOp st
    (before : list obj) (newest : obj) :
  drawingHistory st = before ++ [newest] ->
  id_of newest = get undoOp "operationId" ->
  Forall (fun op => id_of op <> get undoOp "operationId") before ->
  drawingHistory (recordUndo now undoOp st).1 = before
  /\ redoStack (recordUndo now undoOp st).1 = redoStack st ++ [newest]
  /\ drawingHistory (recordRedo now' redoOp (recordUndo now undoOp st).1).1
     = drawingHistory st
  /\ redoStack (recordRedo now' redoOp (recordUndo now undoOp st).1).1 = redoStack st.
Proof.
  intros Hh Hid Hbefore.
  destruct (recordUndo_hit now undoOp st) as (i & x & Hi & Hx & Htake & Hres).
  { rewrite Hh. apply Exists_app. right. constructor. exact Hid. }
  assert (i = length before) as ->.
  { rewrite Hh in Hi. destruct (decide (i < length before)) as [Hlt|Hge].
    - rewrite lookup_app_l in Hi by exact Hlt.
      exfalso. exact (Forall_lookup_1 _ _ _ _ Hbefore Hi Hx).
    - apply lookup_lt_Some in Hi. rewrite length_app in Hi. cbn in Hi. lia. }
  assert (x = newest) as ->.
  { rewrite Hh, lookup_app_r, Nat.sub_diag in Hi by lia. cbn in Hi. congruence. }
  assert (Hdel : delete (length before) (drawingHistory st) = before).
  { rewrite Hh, delete_take_drop, take_app_length.
    rewrite drop_app_ge by lia. replace (S (length before) - length before) with 1 by lia.
    cbn. apply app_nil_r. }
  rewrite Hres. cbn [fst drawingHistory redoStack]. rewrite Hdel.
  erewrite recordRedo_snoc by reflexivity. cbn [fst drawingHistory redoStack].
  rewrite Hh. repeat split; reflexivity.
Qed.

Lemma undo_redo_of_newest_is_identity_witness :
  let st := run (appends (sampleBatch 3)) (new 0) in
  drawingHistory (recordUndo 10 (numberedUndo 3) st).1 = enrichAll (sampleBatch 2)
  /\ redoStack (recordUndo 10 (numberedUndo 3) st).1
     = redoStack st ++ [enrich "uuid-0" 3 (numberedErase 3)]
  /\ drawingHistory (recordRedo 11 (sampleRedo "alice") (recordUndo 10 (numberedUndo 3) st).1).1
     = drawingHistory st
  /\ redoStack (recordRedo 11 (sampleRedo "alice") (recordUndo 10 (numberedUndo 3) st).1).1
     = redoStack st.
Proof.
  apply (undo_redo_of_newest_is_identity 10 11 (numberedUndo 3) (sampleRedo "alice")
           (run (appends (sampleBatch 3)) (new 0))
           (enrichAll (sampleBatch 2)) (enrich "uuid-0" 3 (numberedErase 3))).
  - apply (bool_decide_unpack _). vm_compute. exact I.
  - vm_compute. reflexivity.
  - apply (bool_decide_unpack _). vm_compute. exact I.
Defined.

(** X10. The redo buffer is a stack: after two successful undos, the
    first redo re-appends the operation undone last and the second the
    one undone first, which leaves the redo buffer as it was before the
    undos. *)
Theorem redo_restores_in_reverse_order (now1 now2 now3 now4 : Z)
    (undoA undoB redoOp : obj) st :
  (recordUndo now1 undoA st).2 = true ->
  (recordUndo now2 undoB (recordUndo now1 undoA st).1).2 = true ->
  exists a b,
    id_of a = get undoA "operationId" /\ id_of b = get undoB "operationId"
    /\ redoStack (recordUndo now2 undoB (recordUndo now1 undoA st).1).1
       = redoStack st ++ [a; b]
    /\ drawingHistory
         (recordRedo now3 redoOp (recordUndo now2 undoB (recordUndo now1 undoA st).1).1).1
       = drawingHistory (recordUndo now2 undoB (recordUndo now1 undoA st).1).1 ++ [b]
    /\ drawingHistory
         (recordRedo now4 redoOp
            (recordRedo now3 redoOp
               (recordUndo now2 undoB (recordUndo now1 undoA st).1).1).1).1
       = drawingHistory (recordUndo now2 undoB (recordUndo now1 undoA st).1).1 ++ [b; a]
    /\ redoStack
         (recordRedo now4 redoOp
            (recordRedo now3 redoOp
               (recordUndo now2 undoB (recordUndo now1 undoA st).1).1).1).1
       = redoStack st.
Proof.
  intros HA HB.
  destruct (recordUndo_success now1 undoA st HA) as (i & a & _ & Ha & _ & HresA).
  rewrite HresA in *. cbn [fst] in *.
  destruct (recordUndo_success now2 undoB _ HB) as (j & b & _ & Hb & _ & HresB).
  rewrite HresB. cbn [fst drawingHistory redoStack].
  exists a, b. split; [exact Ha|]. split; [exact Hb|].
  split; [rewrite <- app_assoc; reflexivity|].
  erewrite recordRedo_snoc
    by (cbn [redoStack]; change [b] with ([] ++ [b]); rewrite app_assoc; reflexivity).
  cbn [fst drawingHistory redoStack]. rewrite app_nil_r.
  erewrite recordRedo_snoc by reflexivity.
  cbn [fst drawingHistory redoStack]. rewrite <- app_assoc.
  repeat split; reflexivity.
Qed.

Lemma redo_restores_in_reverse_order_witness :
  let st := run (appends (sampleBatch 3)) (new 0) in
  exists a b,
    id_of a = get (numberedUndo 1) "operationId"
    /\ id_of b = get (numberedUndo 2) "operationId"
    /\ redoStack (recordUndo 11 (numberedUndo 2) (recordUndo 10 (numberedUndo 1) st).1).1
       = redoStack st ++ [a; b]
    /\ drawingHistory
         (recordRedo 12 (sampleRedo "bob")
            (recordUndo 11 (numberedUndo 2) (recordUndo 10 (numberedUndo 1) st).1).1).1
       = drawingHistory
           (recordUndo 11 (numberedUndo 2) (recordUndo 10 (numberedUndo 1) st).1).1 ++ [b]
    /\ drawingHistory
         (recordRedo 13 (sampleRedo "bob")
            (recordRedo 12 (sampleRedo "bob")
               (recordUndo 11 (numberedUndo 2) (recordUndo 10 (numberedUndo 1) st).1).1).1).1
       = drawingHistory
           (recordUndo 11 (numberedUndo 2) (recordUndo 10 (numberedUndo 1) st).1).1 ++ [b; a]
    /\ redoStack
         (recordRedo 13 (sampleRedo "bob")
            (recordRedo 12 (sampleRedo "bob")
               (recordUndo 11 (numberedUndo 2) (recordUndo 10 (numberedUndo 1) st).1).1).1).1
       = redoStack st.
Proof.
  apply (redo_restores_in_reverse_order 10 11 12 13 (numberedUndo 1) (numberedUndo 2)
           (sampleRedo "bob") (run (appends (sampleBatch 3)) (new 0)));
    vm_compute; reflexivity.
Defined.

(** X11. After [clear] the log holds nothing to undo or redo: every undo
    and every redo fails and leaves the cleared log as it is; clearing
    twice is clearing once, and the size bound and the creation time
    survive. *)
Theorem clear_leaves_nothing_to_undo (now : Z) (request : obj) st :
  recordUndo now request (clear st) = (clear st, false)
  /\ recordRedo now request (clear st) = (clear st, false)
  /\ clear (clear st) = clear st
  /\ maxHistorySize (clear st) = maxHistorySize st
  /\ createdAt (clear st) = createdAt st.
Proof. repeat split; reflexivity. Qed.

Lemma undoRecord_fields (now : Z) undoOp :
  get (undoRecord now undoOp) "timestamp" = Num now
  /\ get (undoRecord now undoOp) "removedOperationId" = get undoOp "operationId"
  /\ get (undoRecord now undoOp) "type"
     = (if has "type" undoOp then get undoOp "type" else Str "UNDO").
Proof.
  unfold undoRecord, get, has, spread. repeat split.
  - rewrite lookup_insert_eq. reflexivity.
  - rewrite lookup_insert_ne by discriminate. rewrite lookup_insert_eq. reflexivity.
  - rewrite !lookup_insert_ne by discriminate. rewrite lookup_union.
    destruct (undoOp !! "type") as [v|] eqn:Hv.
    + rewrite bool_decide_eq_true_2 by eauto. reflexivity.
    + rewrite bool_decide_eq_false_2 by (intros [? ?]; discriminate).
      rewrite lookup_singleton_eq. reflexivity.
Qed.

Lemma redoRecord_fields (now : Z) redoOp operation :
  get (redoRecord now redoOp operation) "timestamp" = Num now
  /\ get (redoRecord now redoOp operation) "readdedOperationId" = id_of operation
  /\ get (redoRecord now redoOp operation) "type"
     = (if has "type" redoOp then get redoOp "type" else Str "REDO").
Proof.
  unfold redoRecord, get, has, spread, id_of. repeat split.
  - rewrite lookup_insert_eq. reflexivity.
  - rewrite lookup_insert_ne by discriminate. rewrite lookup_insert_eq. reflexivity.
  - rewrite !lookup_insert_ne by discriminate. rewrite lookup_union.
    destruct (redoOp !! "type") as [v|] eqn:Hv.
    + rewrite bool_decide_eq_true_2 by eauto. reflexivity.
    + rewrite bool_decide_eq_false_2 by (intros [? ?]; discriminate).
      rewrite lookup_singleton_eq. reflexivity.
Qed.

(** X12. The audit trail: a successful undo appends exactly one record,
    and so does a successful redo. The record carries the server's time
    as [timestamp], whatever timestamp the request had, and the id
    requested (undo) or the id of the operation restored (redo); its
    [type] is the request's own [type] when the request has one, and
    UNDO or REDO otherwise. *)
Theorem audit_trail_records (now : Z) (undoOp redoOp : obj) (stU stR : DrawingState.t) :
  (recordUndo now undoOp stU).2 = true ->
  (recordRedo now redoOp stR).2 = true ->
  (exists record,
      operationHistory (recordUndo now undoOp stU).1 = operationHistory stU ++ [record]
      /\ get record "timestamp" = Num now
      /\ get record "removedOperationId" = get undoOp "operationId"
      /\ get record "type" = (if has "type" undoOp then get undoOp "type" else Str "UNDO"))
  /\ (exists record restored,
        operationHistory (recordRedo now redoOp stR).1 = operationHistory stR ++ [record]
        /\ last (drawingHistory (recordRedo now redoOp stR).1) = Some restored
        /\ get record "timestamp" = Num now
        /\ get record "readdedOperationId" = id_of restored
        /\ get record "type" = (if has "type" redoOp then get redoOp "type" else Str "REDO")).
Proof.
  intros HU HR. split.
  - destruct (recordUndo_success now undoOp stU HU) as (i & x & _ & _ & _ & Hres).
    exists (undoRecord now undoOp). rewrite Hres. cbn [fst operationHistory].
    destruct (undoRecord_fields now undoOp) as (H1 & H2 & H3).
    repeat split; assumption.
  - unfold recordRedo in *.
    destruct (pop (redoStack stR)) as [[x rest]|]; [|discriminate].
    exists (redoRecord now redoOp x), x. cbn [fst operationHistory drawingHistory].
    destruct (redoRecord_fields now redoOp x) as (H1 & H2 & H3).
    repeat split; try assumption. apply last_snoc.
Qed.

Lemma audit_trail_records_witness :
  let stU := run (appends (sampleBatch 3)) (new 0) in
  let stR := (recordUndo 10 (numberedUndo 2) stU).1 in
  let undoOp := <["timestamp" := Num 5]> (numberedUndo 1) in
  let redoOp := literal [("userId", Str "bob")] in
  (exists record,
      operationHistory (recordUndo 20 undoOp stU).1 = operationHistory stU ++ [record]
      /\ get record "timestamp" = Num 20
      /\ get record "removedOperationId" = get undoOp "operationId"
      /\ get record "type" = (if has "type" undoOp then get undoOp "type" else Str "UNDO"))
  /\ (exists record restored,
        operationHistory (recordRedo 20 redoOp stR).1 = operationHistory stR ++ [record]
        /\ last (drawingHistory (recordRedo 20 redoOp stR).1) = Some restored
        /\ get record "timestamp" = Num 20
        /\ get record "readdedOperationId" = id_of restored
        /\ get record "type" = (if has "type" redoOp then get redoOp "type" else Str "REDO")).
Proof.
  apply (audit_trail_records 20 (<["timestamp" := Num 5]> (numberedUndo 1))
           (literal [("userId", Str "bob")])
           (run (appends (sampleBatch 3)) (new 0))
           (recordUndo 10 (numberedUndo 2) (run (appends (sampleBatch 3)) (new 0))).1);
    vm_compute; reflexivity.
Defined.

(** X13. [getUserOperations] follows the history: after a valid append
    to a history below the size bound, the author's operations are the
    ones before plus the new entry at the end, and every other user's
    operations are as before. *)
Theorem getUserOperations_after_append uuid (now : Z) operation (user : value) st :
  validateOperation operation = true ->
  length (drawingHistory st) < maxHistorySize st ->
  getUserOperations user (addOperation uuid now operation st).1
  = getUserOperations user st
    ++ (if decide (get operation "userId" = user)
        then [enrich uuid now operation] else []).
Proof.
  intros Hv Hroom. unfold getUserOperations.
  rewrite addOperation_valid by exact Hv. cbn [fst drawingHistory].
  rewrite length_app. cbn [length].
  destruct (Nat.ltb_spec (maxHistorySize st) (length (drawingHistory st) + 1)); [lia|].
  rewrite filter_app, filter_cons, filter_nil.
  assert (Huser : get (enrich uuid now operation) "userId" = get operation "userId")
    by (unfold get; rewrite enrich_other by discriminate; reflexivity).
  rewrite Huser. reflexivity.
Qed.

Lemma getUserOperations_after_append_witness :
  let st := run (appends (sampleBatch 3)) (new 0) in
  getUserOperations (Str "bob") (addOperation "uuid-9" 9 (sampleErase "bob" "o9") st).1
  = getUserOperations (Str "bob") st
    ++ (if decide (get (sampleErase "bob" "o9") "userId" = Str "bob")
        then [enrich "uuid-9" 9 (sampleErase "bob" "o9")] else []).
Proof.
  apply (getUserOperations_after_append "uuid-9" 9 (sampleErase "bob" "o9") (Str "bob")
           (run (appends (sampleBatch 3)) (new 0))).
  - vm_compute. reflexivity.
  - vm_compute. lia.
Defined.

End LogMore.

(** ** Further properties of rooms and of the directory *)

Section MapFacts.
Context {K V : Type} `{EqDecision K}.
Implicit Types (k : K) (v : V) (l : list (K * V)).

Lemma Map_get_None k l : Map_get k l = None <-> k ∉ l.*1.
Proof.
  induction l as [|[k' v'] l IH]; cbn.
  - split; [intros _; apply not_elem_of_nil | reflexivity].
  - rewrite not_elem_of_cons. destruct (decide (k' = k)) as [->|Hne].
    + split; [discriminate | intros [Hk _]; contradiction].
    + rewrite IH. split; [intros ?; split; [congruence | assumption] | intros [_ ?]; assumption].
Qed.

Lemma Map_get_Some_elem k v l : Map_get k l = Some v -> (k, v) ∈ l.
Proof.
  induction l as [|[k' v'] l IH]; cbn; [discriminate|].
  destruct (decide (k' = k)) as [->|Hne].
  - intros [= ->]. apply list_elem_of_here.
  - intros Hl. apply list_elem_of_further, IH, Hl.
Qed.

Lemma Map_get_elem k v l : NoDup l.*1 -> (k, v) ∈ l -> Map_get k l = Some v.
Proof.
  induction l as [|[k' v'] l IH]; cbn; intros Hnd Hin.
  - apply elem_of_nil in Hin. contradiction.
  - apply NoDup_cons in Hnd as [Hk' Hnd]. apply elem_of_cons in Hin as [Heq|Hin].
    + injection Heq as -> ->. rewrite decide_True by reflexivity. reflexivity.
    + destruct (decide (k' = k)) as [->|Hne]; [|apply IH; assumption].
      exfalso. apply Hk'. apply (list_elem_of_fmap_2 fst) in Hin. exact Hin.
Qed.

Lemma Map_set_absent k v l : Map_get k l = None -> Map_set k v l = l ++ [(k, v)].
Proof.
  induction l as [|[k' v'] l IH]; cbn; [reflexivity|].
  destruct (decide (k' = k)); [discriminate|]. intros Hl. rewrite IH by exact Hl.
  reflexivity.
Qed.

Lemma Map_get_set k v l : Map_get k (Map_set k v l) = Some v.
Proof.
  induction l as [|[k' v'] l IH]; cbn.
  - rewrite decide_True by reflexivity. reflexivity.
  - destruct (decide (k' = k)) as [->|Hne]; cbn.
    + rewrite decide_True by reflexivity. reflexivity.
    + rewrite decide_False by exact Hne. exact IH.
Qed.

Lemma Map_get_set_ne k k' v l : k' <> k -> Map_get k' (Map_set k v l) = Map_get k' l.
Proof.
  intros Hne. induction l as [|[k0 v0] l IH]; cbn.
  - rewrite decide_False by congruence. reflexivity.
  - destruct (decide (k0 = k)) as [->|Hk]; cbn.
    + rewrite !decide_False by congruence. reflexivity.
    + destruct (decide (k0 = k')); [reflexivity | exact IH].
Qed.

Lemma NoDup_snd_same_key (a : V) k k' l :
  NoDup l.*2 -> (k, a) ∈ l -> (k', a) ∈ l -> k = k'.
Proof.
  intros Hnd Hk Hk'.
  apply list_elem_of_lookup in Hk as [i Hi]. apply list_elem_of_lookup in Hk' as [j Hj].
  assert (i = j) as ->.
  { apply (NoDup_lookup _ i j a Hnd); rewrite list_lookup_fmap;
      [rewrite Hi | rewrite Hj]; reflexivity. }
  congruence.
Qed.

Lemma Map_get_delete_ne k k' l : k' <> k -> Map_get k' (Map_delete k l) = Map_get k' l.
Proof.
  intros Hne. unfold Map_delete. induction l as [|[k0 v0] l IH]; [reflexivity|].
  rewrite filter_cons. cbn. case_decide as Hk; cbn.
  - rewrite IH. reflexivity.
  - destruct (decide (k0 = k')) as [->|_]; [|exact IH].
    exfalso. first [exact (Hne Hk) | apply Hk; exact Hne].
Qed.

Lemma elem_of_Map_delete k (e : K * V) l : e ∈ Map_delete k l <-> e.1 <> k /\ e ∈ l.
Proof. unfold Map_delete. rewrite list_elem_of_filter. reflexivity. Qed.

Lemma Map_delete_absent k l : Map_get k l = None -> Map_delete k l = l.
Proof.
  intros Hk. apply Map_get_None in Hk. unfold Map_delete.
  induction l as [|[k' v'] l IH]; [reflexivity|].
  cbn in Hk. apply not_elem_of_cons in Hk as [Hne Hk].
  rewrite filter_cons. cbn. rewrite decide_True by congruence.
  rewrite IH by exact Hk. reflexivity.
Qed.

Lemma NoDup_fmap_filter {A B : Type} (f : A -> B) (P : A -> Prop)
    `{forall x, Decision (P x)} (l : list A) :
  NoDup (f <$> l) -> NoDup (f <$> filter P l).
Proof.
  induction l as [|x l IH]; [intros _; constructor|].
  cbn [fmap list_fmap]. rewrite NoDup_cons. intros [Hx Hl].
  rewrite filter_cons. destruct (decide (P x)); [|apply IH; exact Hl].
  cbn [fmap list_fmap]. apply NoDup_cons. split; [|apply IH; exact Hl].
  intros Hin. apply Hx. apply list_elem_of_fmap in Hin as (y & -> & Hy).
  apply list_elem_of_filter in Hy as [_ Hy]. apply list_elem_of_fmap_2. exact Hy.
Qed.

Lemma Map_delete_keys k l : (Map_delete k l).*1 = filter (fun k' => k' <> k) l.*1.
Proof.
  unfold Map_delete. induction l as [|[k' v'] l IH]; [reflexivity|].
  cbn [fmap list_fmap fst]. rewrite !filter_cons. cbn [fst].
  destruct (decide (k' <> k)); cbn [fmap list_fmap fst]; rewrite IH; reflexivity.
Qed.

End MapFacts.

Section RoomsMore.
Import Server.
Implicit Types (ws p : WebSocket) (m : RoomManager.t) (room : DrawingRoom.t)
         (net : Net) (msg : message).

(** X14. A [send] that throws is isolated: whether and on which
    connections [send] throws changes neither the connections [broadcast]
    calls [send] on nor their order, and every open registered connection
    other than the excluded one whose own [send] does not throw is sent the
    message. *)
Theorem broadcast_failure_is_isolated net net' msg (excludeWs : option WebSocket) room p :
  (forall q, readyState net' q = readyState net q) ->
  p ∈ members room ->
  isOpen net p ->
  Some p <> excludeWs ->
  sendThrows net p = false ->
  Sent p msg ∈ DrawingRoom.broadcast net msg excludeWs room
  /\ recipients (DrawingRoom.broadcast net' msg excludeWs room)
     = recipients (DrawingRoom.broadcast net msg excludeWs room).
Proof.
  intros Hsame Hin Hopen Hex Hsend. split.
  - rewrite broadcast_spec. apply list_elem_of_fmap. exists p. split.
    + unfold try_send. rewrite Hsend. reflexivity.
    + apply list_elem_of_filter. repeat split; assumption.
  - rewrite !broadcast_spec, !recipients_try_send. apply list_filter_iff.
    intros q. unfold isOpen. rewrite Hsame. reflexivity.
Qed.

Lemma broadcast_failure_is_isolated_witness :
  let failing := {| readyState := readyState sampleNet;
                    sendThrows := fun q => bool_decide (q = 1) |} in
  let msg := Flat (sampleRedo "bob") in
  Sent 2 msg ∈ DrawingRoom.broadcast failing msg None roomOfThree
  /\ recipients (DrawingRoom.broadcast sampleNet msg None roomOfThree)
     = recipients (DrawingRoom.broadcast failing msg None roomOfThree).
Proof.
  apply (broadcast_failure_is_isolated
           {| readyState := readyState sampleNet;
              sendThrows := fun q => bool_decide (q = 1) |}
           sampleNet (Flat (sampleRedo "bob")) None roomOfThree 2).
  - reflexivity.
  - apply (bool_decide_unpack _). vm_compute. exact I.
  - reflexivity.
  - discriminate.
  - reflexivity.
Defined.



(** X16. [removeClient] returns the info registered for the connection,
    or nothing when the connection is not registered; afterwards the
    connection is not a member, the other members keep their order and
    their info, and the room's log and color index are untouched. *)
Theorem removeClient_removes_only_that_connection ws room :
  (DrawingRoom.removeClient ws room).2 = Map_get ws (DrawingRoom.clients room)
  /\ members (DrawingRoom.removeClient ws room).1
     = filter (fun p => p <> ws) (members room)
  /\ (ws ∉ members (DrawingRoom.removeClient ws room).1)
  /\ (forall p, p <> ws ->
        Map_get p (DrawingRoom.clients (DrawingRoom.removeClient ws room).1)
        = Map_get p (DrawingRoom.clients room))
  /\ DrawingRoom.drawingState (DrawingRoom.removeClient ws room).1
     = DrawingRoom.drawingState room
  /\ DrawingRoom.userColorIndex (DrawingRoom.removeClient ws room).1
     = DrawingRoom.userColorIndex room.
Proof.
  unfold DrawingRoom.removeClient, members.
  destruct (Map_get ws (DrawingRoom.clients room)) as [info|] eqn:Hget;
    cbn [fst snd DrawingRoom.set_clients DrawingRoom.clients
         DrawingRoom.drawingState DrawingRoom.userColorIndex].
  - split; [reflexivity|]. split; [apply Map_delete_keys|]. split.
    { rewrite Map_delete_keys. intros Hin.
      apply list_elem_of_filter in Hin as [Hne _]. apply Hne. reflexivity. }
    split; [|split; reflexivity].
    intros p Hne. apply Map_get_delete_ne. exact Hne.
  - pose proof Hget as Hnot. apply Map_get_None in Hnot.
    split; [reflexivity|]. split.
    { rewrite <- Map_delete_keys, Map_delete_absent by exact Hget. reflexivity. }
    split; [exact Hnot|]. split; [|split; reflexivity]. reflexivity.
Qed.

Lemma removeClient_removes_only_that_connection_witness :
  (DrawingRoom.removeClient 2 roomOfThree).2 = Some (sampleInfo "uuid-bob" "Bob" "#4ECDC4")
  /\ members (DrawingRoom.removeClient 2 roomOfThree).1 = [1; 3]
  /\ Map_get 3 (DrawingRoom.clients (DrawingRoom.removeClient 2 roomOfThree).1)
     = Map_get 3 (DrawingRoom.clients roomOfThree)
  /\ (DrawingRoom.removeClient 7 roomOfThree).2 = None
  /\ members (DrawingRoom.removeClient 7 roomOfThree).1 = members roomOfThree.
Proof.
  destruct (removeClient_removes_only_that_connection 2 roomOfThree)
    as (Hinfo & Hmembers & _ & Hothers & _).
  destruct (removeClient_removes_only_that_connection 7 roomOfThree)
    as (Hinfo' & Hmembers' & _).
  rewrite Hinfo, Hmembers, Hinfo', Hmembers'.
  split; [reflexivity|]. split; [reflexivity|]. split; [apply Hothers; discriminate|].
  split; reflexivity.
Defined.

Lemma directory_entry m (e : value * nat) :
  NoDup (RoomManager.rooms m).*1 -> e ∈ RoomManager.rooms m ->
  Map_get e.1 (RoomManager.rooms m) = Some e.2.
Proof. intros Hnd He. destruct e as [k a]. apply Map_get_elem; assumption. Qed.

Lemma directory_distinct m (e e' : value * nat) :
  NoDup (RoomManager.rooms m).*1 -> NoDup (RoomManager.rooms m).*2 ->
  e ∈ RoomManager.rooms m -> e' ∈ RoomManager.rooms m -> e' <> e ->
  e'.1 <> e.1 /\ e'.2 <> e.2.
Proof.
  intros Hk Ha He He' Hne. destruct e as [k a], e' as [k' a']. cbn. split; intros ->.
  - apply Hne. f_equal.
    pose proof (Map_get_elem _ _ _ Hk He) as H1.
    pose proof (Map_get_elem _ _ _ Hk He') as H2. congruence.
  - apply Hne. f_equal. exact (NoDup_snd_same_key _ _ _ _ Ha He' He).
Qed.

Lemma doomedAt_alter_ne (now : Z) f (h : gmap nat DrawingRoom.t) (a b : nat) :
  a <> b -> doomedAt now (alter f a h) b = doomedAt now h b.
Proof. intros Hne. unfold doomedAt. rewrite lookup_alter_ne by exact Hne. reflexivity. Qed.

Lemma deleteRoom_present roomId (a : nat) m :
  Map_get roomId (RoomManager.rooms m) = Some a ->
  RoomManager.deleteRoom roomId m
  = {| RoomManager.heap := alter DrawingRoom.destroy a (RoomManager.heap m);
       RoomManager.rooms := Map_delete roomId (RoomManager.rooms m) |}.
Proof. intros H. unfold RoomManager.deleteRoom. rewrite H. reflexivity. Qed.

Lemma cleanup_as_sweep (now : Z) m :
  RoomManager.cleanup now m = foldl (sweepStep now) m (RoomManager.rooms m).
Proof.
  unfold RoomManager.cleanup. cbv zeta. generalize (RoomManager.rooms m) as l.
  intros l. revert m. induction l as [|e l IH]; intros m; [reflexivity|].
  cbn [foldl]. rewrite IH. f_equal. unfold sweepStep, doomedAt.
  destruct (RoomManager.heap m !! e.2) as [room|]; reflexivity.
Qed.

(** The sweep over part of the directory: what it keeps, what it
    removes, and what it leaves of the directory's shape. *)
Lemma sweep_entries (now : Z) (l : list (value * nat)) m :
  NoDup (RoomManager.rooms m).*1 ->
  NoDup (RoomManager.rooms m).*2 ->
  NoDup l ->
  (forall e, e ∈ l -> e ∈ RoomManager.rooms m) ->
  NoDup (RoomManager.rooms (foldl (sweepStep now) m l)).*1
  /\ NoDup (RoomManager.rooms (foldl (sweepStep now) m l)).*2
  /\ (forall e, e ∈ RoomManager.rooms (foldl (sweepStep now) m l) ->
                e ∈ RoomManager.rooms m)
  /\ (forall e, e ∈ RoomManager.rooms m ->
                e ∉ l \/ doomedAt now (RoomManager.heap m) e.2 = false ->
                e ∈ RoomManager.rooms (foldl (sweepStep now) m l)
                /\ RoomManager.heap (foldl (sweepStep now) m l) !! e.2
                   = RoomManager.heap m !! e.2)
  /\ (forall e, e ∈ l -> doomedAt now (RoomManager.heap m) e.2 = true ->
                e.1 ∉ (RoomManager.rooms (foldl (sweepStep now) m l)).*1)
  /\ dom (RoomManager.heap (foldl (sweepStep now) m l)) = dom (RoomManager.heap m).
Proof.
  revert m. induction l as [|e l IH]; intros m Hkeys Haddrs Hl Hsub.
  { cbn [foldl]. repeat split; try assumption; try tauto.
    intros e He. apply elem_of_nil in He. contradiction. }
  apply NoDup_cons in Hl as [Hel Hl].
  assert (He : e ∈ RoomManager.rooms m) by (apply Hsub, list_elem_of_here).
  cbn [foldl].
  destruct (doomedAt now (RoomManager.heap m) e.2) eqn:Hd.
  - set (m1 := {| RoomManager.heap := alter DrawingRoom.destroy e.2 (RoomManager.heap m);
                  RoomManager.rooms := Map_delete e.1 (RoomManager.rooms m) |}).
    assert (Hstep : sweepStep now m e = m1).
    { unfold sweepStep. rewrite Hd.
      apply deleteRoom_present, directory_entry; assumption. }
    rewrite Hstep.
    assert (Hin1 : forall e0, e0 ∈ RoomManager.rooms m -> e0 <> e ->
                              e0 ∈ RoomManager.rooms m1).
    { intros e0 He0 Hne. apply elem_of_Map_delete. split; [|exact He0].
      apply (directory_distinct m e e0 Hkeys Haddrs He He0 Hne). }
    destruct (IH m1) as (Hk' & Ha' & Hsub' & Hkeep & Hgone & Hdom).
    { cbn [RoomManager.rooms m1]. rewrite Map_delete_keys. apply NoDup_filter. exact Hkeys. }
    { apply NoDup_fmap_filter. exact Haddrs. }
    { exact Hl. }
    { intros e0 He0. apply Hin1; [apply Hsub, list_elem_of_further, He0|].
      intros ->. contradiction. }
    split; [exact Hk'|]. split; [exact Ha'|]. split.
    { intros e0 He0. apply Hsub' in He0. apply elem_of_Map_delete in He0 as [_ ?].
      assumption. }
    split.
    { intros e0 He0 Hcase.
      assert (Hne : e0 <> e).
      { intros ->. destruct Hcase as [Hnot|Hnd]; [|congruence].
        apply Hnot, list_elem_of_here. }
      destruct (directory_distinct m e e0 Hkeys Haddrs He He0 Hne) as [_ Haddr].
      destruct (Hkeep e0 (Hin1 e0 He0 Hne)) as [Hin Hheap].
      { destruct Hcase as [Hnot|Hnd].
        - left. intros Hin. apply Hnot, list_elem_of_further, Hin.
        - right. cbn [RoomManager.heap m1]. rewrite doomedAt_alter_ne by congruence.
          exact Hnd. }
      split; [exact Hin|]. rewrite Hheap. cbn [RoomManager.heap m1].
      apply lookup_alter_ne. congruence. }
    split.
    { intros e0 He0 Hd0. apply elem_of_cons in He0 as [->|He0].
      - intros Hin. apply list_elem_of_fmap in Hin as (x & Hx1 & Hx).
        apply Hsub' in Hx. apply elem_of_Map_delete in Hx as [Hne _].
        apply Hne. symmetry. exact Hx1.
      - assert (Hne : e0 <> e) by (intros ->; contradiction).
        assert (He0m : e0 ∈ RoomManager.rooms m) by (apply Hsub, list_elem_of_further, He0).
        destruct (directory_distinct m e e0 Hkeys Haddrs He He0m Hne) as [_ Haddr].
        apply Hgone; [exact He0|]. cbn [RoomManager.heap m1].
        rewrite doomedAt_alter_ne by congruence. exact Hd0. }
    transitivity (dom (RoomManager.heap m1)); [exact Hdom | apply dom_alter_L].
  - assert (Hstep : sweepStep now m e = m) by (unfold sweepStep; rewrite Hd; reflexivity).
    rewrite Hstep.
    destruct (IH m Hkeys Haddrs Hl) as (Hk' & Ha' & Hsub' & Hkeep & Hgone & Hdom).
    { intros e0 He0. apply Hsub, list_elem_of_further, He0. }
    split; [exact Hk'|]. split; [exact Ha'|]. split; [exact Hsub'|]. split.
    { intros e0 He0 Hcase. apply Hkeep; [exact He0|].
      destruct (decide (e0 = e)) as [->|Hne]; [left; exact Hel|].
      destruct Hcase as [Hnot|Hnd]; [left|right; exact Hnd].
      intros Hin. apply Hnot, list_elem_of_further, Hin. }
    split; [|exact Hdom].
    intros e0 He0 Hd0. apply elem_of_cons in He0 as [->|He0]; [congruence|].
    apply Hgone; assumption.
Qed.

(** X17. [getOrCreateRoom] gets the room of that id when the directory
    has one, changing nothing, and otherwise adds a new, empty room under
    a fresh address; either way a second call finds the same room, the
    other ids and all existing room objects are untouched, and the
    directory stays well formed. *)
Theorem getOrCreateRoom_gets_or_creates (now now' : Z) (roomId : value) m :
  directory_ok m ->
  directory_ok (RoomManager.getOrCreateRoom now roomId m).1
  /\ Map_get roomId (RoomManager.rooms (RoomManager.getOrCreateRoom now roomId m).1)
     = Some (RoomManager.getOrCreateRoom now roomId m).2
  /\ RoomManager.getOrCreateRoom now' roomId (RoomManager.getOrCreateRoom now roomId m).1
     = RoomManager.getOrCreateRoom now roomId m
  /\ (forall k, k <> roomId ->
        Map_get k (RoomManager.rooms (RoomManager.getOrCreateRoom now roomId m).1)
        = Map_get k (RoomManager.rooms m))
  /\ (forall b room, RoomManager.heap m !! b = Some room ->
        RoomManager.heap (RoomManager.getOrCreateRoom now roomId m).1 !! b = Some room)
  /\ (forall a, Map_get roomId (RoomManager.rooms m) = Some a ->
        RoomManager.getOrCreateRoom now roomId m = (m, a))
  /\ (Map_get roomId (RoomManager.rooms m) = None ->
      RoomManager.heap m !! (RoomManager.getOrCreateRoom now roomId m).2 = None
      /\ RoomManager.getRoom roomId (RoomManager.getOrCreateRoom now roomId m).1
         = Some (DrawingRoom.new now roomId)).
Proof.
  intros (Hkeys & Haddrs & Halloc). unfold RoomManager.getOrCreateRoom.
  destruct (Map_get roomId (RoomManager.rooms m)) as [a|] eqn:Hget.
  - cbn [fst snd]. rewrite Hget.
    repeat split; try assumption; try reflexivity; try discriminate.
    + intros b room Hb. exact Hb.
    + intros a' [= <-]. reflexivity.
  - cbn [fst snd RoomManager.rooms RoomManager.heap].
    set (a := fresh (dom (RoomManager.heap m))).
    assert (Hfresh : RoomManager.heap m !! a = None)
      by (apply not_elem_of_dom, is_fresh).
    rewrite Map_get_set.
    assert (Hset : Map_set roomId a (RoomManager.rooms m)
                   = RoomManager.rooms m ++ [(roomId, a)])
      by (apply Map_set_absent; exact Hget).
    split.
    { unfold directory_ok. cbn [RoomManager.rooms RoomManager.heap]. rewrite Hset.
      rewrite !fmap_app. cbn [fmap list_fmap fst snd]. repeat split.
      - apply NoDup_app. split; [exact Hkeys|]. split; [|apply NoDup_singleton].
        intros k Hk Hk'. apply list_elem_of_singleton in Hk'. subst k.
        apply Map_get_None in Hget. contradiction.
      - apply NoDup_app. split; [exact Haddrs|]. split; [|apply NoDup_singleton].
        intros b Hb Hb'. apply list_elem_of_singleton in Hb'.
        apply list_elem_of_fmap in Hb as (e & He1 & He).
        rewrite Forall_forall in Halloc. destruct (Halloc e He) as [room Hroom].
        cbn in Hroom. congruence.
      - apply Forall_app. split.
        + eapply Forall_impl; [exact Halloc|]. intros e [room Hroom]. cbn.
          exists room. rewrite lookup_insert_ne; [exact Hroom|].
          intros Heq. cbn in Hroom. congruence.
        + apply Forall_cons. split; [|constructor]. cbn. rewrite lookup_insert_eq. eauto. }
    split; [reflexivity|]. split; [reflexivity|]. split.
    { intros k Hk. apply Map_get_set_ne. exact Hk. }
    split.
    { intros b room Hb. rewrite lookup_insert_ne; [exact Hb|]. intros <-. congruence. }
    split; [discriminate|]. intros _. split; [exact Hfresh|].
    unfold RoomManager.getRoom. cbn [RoomManager.rooms RoomManager.heap].
    rewrite Map_get_set. cbn. apply lookup_insert_eq.
Qed.

Lemma directory_ok_managerOf room : directory_ok (managerOf room).
Proof.
  unfold directory_ok, managerOf. cbn [RoomManager.rooms RoomManager.heap fmap list_fmap fst snd].
  repeat split; try apply NoDup_singleton.
  apply Forall_cons. split; [|constructor]. cbn. rewrite lookup_singleton_eq. eauto.
Qed.

Lemma getOrCreateRoom_gets_or_creates_witness :
  let m := managerOf roomOfAlice in
  let created := RoomManager.getOrCreateRoom 100 (Str "r2") m in
  directory_ok created.1
  /\ Map_get (Str "r2") (RoomManager.rooms created.1) = Some created.2
  /\ RoomManager.getOrCreateRoom 200 (Str "r2") created.1 = created
  /\ RoomManager.getRoom (Str "r2") created.1 = Some (DrawingRoom.new 100 (Str "r2"))
  /\ RoomManager.getOrCreateRoom 200 (Str "r1") m = (m, 0).
Proof.
  destruct (getOrCreateRoom_gets_or_creates 100 200 (Str "r2") (managerOf roomOfAlice)
              (directory_ok_managerOf roomOfAlice))
    as (Hok & Hget & Hidem & _ & _ & _ & Hnew).
  destruct (getOrCreateRoom_gets_or_creates 200 200 (Str "r1") (managerOf roomOfAlice)
              (directory_ok_managerOf roomOfAlice))
    as (_ & _ & _ & _ & _ & Hold & _).
  split; [exact Hok|]. split; [exact Hget|]. split; [exact Hidem|]. split.
  - apply Hnew. reflexivity.
  - apply Hold. reflexivity.
Defined.

(** X18. [deleteRoom] removes exactly the room of that id: the id no
    longer resolves, the room object is wiped (no clients, empty log),
    every other id resolves to the same room as before, and the directory
    stays well formed; deleting an id the directory does not have changes
    nothing. *)
Theorem deleteRoom_removes_one_room (roomId : value) m :
  directory_ok m ->
  directory_ok (RoomManager.deleteRoom roomId m)
  /\ RoomManager.getRoom roomId (RoomManager.deleteRoom roomId m) = None
  /\ (forall k, k <> roomId ->
        RoomManager.getRoom k (RoomManager.deleteRoom roomId m) = RoomManager.getRoom k m)
  /\ (forall a, Map_get roomId (RoomManager.rooms m) = Some a ->
        RoomManager.heap (RoomManager.deleteRoom roomId m) !! a
        = DrawingRoom.destroy <$> RoomManager.heap m !! a)
  /\ (Map_get roomId (RoomManager.rooms m) = None -> RoomManager.deleteRoom roomId m = m).
Proof.
  intros (Hkeys & Haddrs & Halloc). unfold RoomManager.deleteRoom.
  destruct (Map_get roomId (RoomManager.rooms m)) as [a|] eqn:Hget.
  - assert (Hin : (roomId, a) ∈ RoomManager.rooms m) by (apply Map_get_Some_elem; exact Hget).
    split.
    { unfold directory_ok. cbn [RoomManager.rooms RoomManager.heap]. repeat split.
      - rewrite Map_delete_keys. apply NoDup_filter. exact Hkeys.
      - apply NoDup_fmap_filter. exact Haddrs.
      - apply Forall_forall. intros e He. apply elem_of_Map_delete in He as [_ He].
        rewrite Forall_forall in Halloc. destruct (Halloc e He) as [room Hroom].
        rewrite lookup_alter. case_decide; [subst|]; rewrite Hroom; cbn; eauto. }
    split.
    { unfold RoomManager.getRoom. cbn [RoomManager.rooms].
      rewrite Map_get_delete. reflexivity. }
    split.
    { intros k Hk. unfold RoomManager.getRoom. cbn [RoomManager.rooms RoomManager.heap].
      rewrite Map_get_delete_ne by exact Hk.
      destruct (Map_get k (RoomManager.rooms m)) as [b|] eqn:Hb; [|reflexivity]. cbn.
      apply lookup_alter_ne. intros <-. apply Hk.
      apply Map_get_Some_elem in Hb. exact (NoDup_snd_same_key _ _ _ _ Haddrs Hb Hin). }
    split; [|discriminate].
    intros a' [= <-]. cbn [RoomManager.heap]. apply lookup_alter_eq.
  - split; [repeat split; assumption|].
    split; [unfold RoomManager.getRoom; rewrite Hget; reflexivity|].
    split; [reflexivity|]. split; [discriminate | reflexivity].
Qed.

Lemma directory_ok_managerOfTwo : directory_ok managerOfTwo.
Proof.
  unfold directory_ok. repeat split; apply (bool_decide_unpack _); vm_compute; exact I.
Qed.

Lemma deleteRoom_removes_one_room_witness :
  directory_ok (RoomManager.deleteRoom (Str "r2") managerOfTwo)
  /\ RoomManager.getRoom (Str "r2") (RoomManager.deleteRoom (Str "r2") managerOfTwo) = None
  /\ RoomManager.getRoom (Str "r1") (RoomManager.deleteRoom (Str "r2") managerOfTwo)
     = RoomManager.getRoom (Str "r1") managerOfTwo
  /\ RoomManager.deleteRoom (Str "r9") managerOfTwo = managerOfTwo.
Proof.
  destruct (deleteRoom_removes_one_room (Str "r2") managerOfTwo directory_ok_managerOfTwo)
    as (Hok & Hgone & Hother & _ & _).
  destruct (deleteRoom_removes_one_room (Str "r9") managerOfTwo directory_ok_managerOfTwo)
    as (_ & _ & _ & _ & Habsent).
  split; [exact Hok|]. split; [exact Hgone|]. split.
  - apply Hother. discriminate.
  - apply Habsent. reflexivity.
Defined.

(** X19. The periodic sweep deletes exactly the rooms that are empty and
    whose last activity is more than an hour old: such a room no longer
    resolves afterwards; every other room of the directory, whether it has
    a participant or was active within the hour, resolves to the same,
    unchanged room object; no id is added; and the directory stays well
    formed. *)
Theorem cleanup_deletes_exactly_idle_empty_rooms (now : Z) m :
  directory_ok m ->
  directory_ok (RoomManager.cleanup now m)
  /\ (forall k a room,
        Map_get k (RoomManager.rooms m) = Some a ->
        RoomManager.heap m !! a = Some room ->
        RoomManager.getRoom k (RoomManager.cleanup now m)
        = if DrawingRoom.isEmpty room
             && (DrawingRoom.lastActivityAt room <? now - 3600000)%Z
          then None else Some room)
  /\ (forall k, Map_get k (RoomManager.rooms m) = None ->
                RoomManager.getRoom k (RoomManager.cleanup now m) = None).
Proof.
  intros (Hkeys & Haddrs & Halloc). rewrite cleanup_as_sweep.
  destruct (sweep_entries now (RoomManager.rooms m) m Hkeys Haddrs)
    as (Hk' & Ha' & Hsub & Hkeep & Hgone & Hdom).
  { eapply NoDup_fmap_1. exact Hkeys. }
  { intros e He. exact He. }
  split.
  { repeat split; [exact Hk' | exact Ha' |].
    apply Forall_forall. intros e He. apply Hsub in He.
    rewrite Forall_forall in Halloc. specialize (Halloc e He).
    apply elem_of_dom. rewrite Hdom. apply elem_of_dom. exact Halloc. }
  split.
  - intros k a room Hget Hroom.
    assert (Hin : (k, a) ∈ RoomManager.rooms m) by (apply Map_get_Some_elem; exact Hget).
    assert (Hd : doomedAt now (RoomManager.heap m) a
                 = DrawingRoom.isEmpty room
                   && (DrawingRoom.lastActivityAt room <? now - 3600000)%Z)
      by (unfold doomedAt; rewrite Hroom; reflexivity).
    rewrite <- Hd. unfold RoomManager.getRoom.
    destruct (doomedAt now (RoomManager.heap m) a) eqn:Hda.
    + specialize (Hgone (k, a) Hin Hda). cbn in Hgone.
      apply Map_get_None in Hgone. rewrite Hgone. reflexivity.
    + destruct (Hkeep (k, a) Hin (or_intror Hda)) as [Hin' Hheap].
      rewrite (Map_get_elem _ _ _ Hk' Hin'). cbn. cbn in Hheap. rewrite Hheap. exact Hroom.
  - intros k Hk. unfold RoomManager.getRoom.
    destruct (Map_get k (RoomManager.rooms (foldl (sweepStep now) m (RoomManager.rooms m))))
      as [a|] eqn:Hget; [|reflexivity].
    apply Map_get_Some_elem, Hsub in Hget. apply Map_get_None in Hk.
    exfalso. apply Hk. apply (list_elem_of_fmap_2 fst) in Hget. exact Hget.
Qed.

Lemma cleanup_deletes_exactly_idle_empty_rooms_witness :
  directory_ok (RoomManager.cleanup 3700101 managerOfTwo)
  /\ RoomManager.getRoom (Str "r1") (RoomManager.cleanup 3700101 managerOfTwo)
     = Some roomOfAlice
  /\ RoomManager.getRoom (Str "r2") (RoomManager.cleanup 3700101 managerOfTwo) = None
  /\ RoomManager.getRoom (Str "r2") (RoomManager.cleanup 3600100 managerOfTwo)
     = Some (DrawingRoom.new 100 (Str "r2")).
Proof.
  destruct (cleanup_deletes_exactly_idle_empty_rooms 3700101 managerOfTwo
              directory_ok_managerOfTwo) as (Hok & Hrooms & _).
  destruct (cleanup_deletes_exactly_idle_empty_rooms 3600100 managerOfTwo
              directory_ok_managerOfTwo) as (_ & Hrooms' & _).
  split; [exact Hok|]. split; [|split].
  - apply (Hrooms (Str "r1") 0 roomOfAlice); apply (bool_decide_unpack _); vm_compute; exact I.
  - apply (Hrooms (Str "r2") 1 (DrawingRoom.new 100 (Str "r2")));
      apply (bool_decide_unpack _); vm_compute; exact I.
  - apply (Hrooms' (Str "r2") 1 (DrawingRoom.new 100 (Str "r2")));
      apply (bool_decide_unpack _); vm_compute; exact I.
Defined.

End RoomsMore.

Section ManagerShutdown.
Implicit Types (m : RoomManager.t) (room : DrawingRoom.t).

Lemma destroy_wiped room : wiped (DrawingRoom.destroy room).
Proof. repeat split. Qed.

Lemma destroy_all_keeps_wiped (l : list (value * nat)) (h : gmap nat DrawingRoom.t) (a : nat) :
  (forall room, h !! a = Some room -> wiped room) ->
  forall room,
    foldl (fun h (entry : value * nat) => alter DrawingRoom.destroy entry.2 h) h l !! a
    = Some room -> wiped room.
Proof.
  revert h. induction l as [|e l IH]; intros h Hh; [exact Hh|].
  cbn [foldl]. apply IH. intros room. rewrite lookup_alter. case_decide.
  - destruct (h !! e.2); [|discriminate]. intros [= <-]. apply destroy_wiped.
  - apply Hh.
Qed.

Lemma destroy_all_wipes (l : list (value * nat)) (h : gmap nat DrawingRoom.t) (a : nat) :
  a ∈ l.*2 ->
  forall room,
    foldl (fun h (entry : value * nat) => alter DrawingRoom.destroy entry.2 h) h l !! a
    = Some room -> wiped room.
Proof.
  revert h. induction l as [|e l IH]; intros h Hin.
  - apply elem_of_nil in Hin. contradiction.
  - cbn [fmap list_fmap] in Hin. cbn [foldl].
    destruct (decide (a = e.2)) as [->|Hne].
    + apply destroy_all_keeps_wiped. intros room. rewrite lookup_alter_eq.
      destruct (h !! e.2); [|discriminate]. intros [= <-]. apply destroy_wiped.
    + apply elem_of_cons in Hin as [Heq|Hin]; [contradiction|]. apply IH. exact Hin.
Qed.

Lemma destroy_all_dom (l : list (value * nat)) (h : gmap nat DrawingRoom.t) :
  dom (foldl (fun h (entry : value * nat) => alter DrawingRoom.destroy entry.2 h) h l)
  = dom h.
Proof.
  revert h. induction l as [|e l IH]; intros h; [reflexivity|].
  cbn [foldl]. rewrite IH. apply dom_alter_L.
Qed.

(** X20. Shutting the directory down: after [destroy] no id resolves to
    a room, every room object the directory listed has no clients and an
    empty log, and no room object is added or dropped from the store. *)
Theorem manager_destroy_wipes_every_room m :
  RoomManager.rooms (RoomManager.destroy m) = []
  /\ RoomManager.getAllRooms (RoomManager.destroy m) = []
  /\ (forall k, RoomManager.getRoom k (RoomManager.destroy m) = None)
  /\ (forall k a room,
        Map_get k (RoomManager.rooms m) = Some a ->
        RoomManager.heap (RoomManager.destroy m) !! a = Some room -> wiped room)
  /\ dom (RoomManager.heap (RoomManager.destroy m)) = dom (RoomManager.heap m).
Proof.
  split; [reflexivity|]. split; [reflexivity|]. split; [reflexivity|]. split.
  - intros k a room Hget. unfold RoomManager.destroy. cbn [RoomManager.heap].
    apply destroy_all_wipes. apply Map_get_Some_elem in Hget.
    apply (list_elem_of_fmap_2 snd) in Hget. exact Hget.
  - apply destroy_all_dom.
Qed.

Lemma manager_destroy_wipes_every_room_witness :
  RoomManager.getRoom (Str "r1") (RoomManager.destroy managerOfTwo) = None
  /\ (forall room,
        RoomManager.heap (RoomManager.destroy managerOfTwo) !! 0 = Some room ->
        wiped room).
Proof.
  destruct (manager_destroy_wipes_every_room managerOfTwo) as (_ & _ & Hgone & Hwiped & _).
  split; [apply Hgone|].
  intros room. apply (Hwiped (Str "r1") 0 room). reflexivity.
Defined.

End ManagerShutdown.

(** ** Further properties of the connection handler *)

Section ServerMore.
Import Server.
Implicit Types (ws p : WebSocket) (e : Env) (data : obj) (c : Connection)
         (m : RoomManager.t) (room : DrawingRoom.t).

Lemma room_at_update_ne (a b : nat) f m :
  a <> b -> room_at b (RoomManager.update a f m) = room_at b m.
Proof.
  intros Hne. unfold room_at, RoomManager.update. cbn [RoomManager.heap].
  apply lookup_alter_ne. exact Hne.
Qed.


(** X21. A connection that has not joined a room is ignored: every
    drawing, undo, redo, clear and cursor message from it, and its close,
    leave the connection and the rooms as they are and send nothing. *)
Theorem messages_outside_a_room_are_ignored ws e data c m :
  currentRoom c = None ->
  handleDraw ws e data c m = (c, m, [])
  /\ handleErase ws e data c m = (c, m, [])
  /\ handleUndo ws e data c m = (c, m, [])
  /\ handleRedo ws e data c m = (c, m, [])
  /\ handleClearCanvas ws e data c m = (c, m, [])
  /\ handleCursorMove ws e data c m = (c, m, [])
  /\ onClose ws e c m = (c, m, []).
Proof.
  intros Hc.
  unfold handleDraw, handleErase, handleUndo, handleRedo, handleClearCanvas,
    handleCursorMove, onClose.
  rewrite Hc. repeat split; reflexivity.
Qed.

Lemma messages_outside_a_room_are_ignored_witness :
  let c := connect "uuid-alice" "User-1" in
  let m := managerOf roomOfAlice in
  handleDraw 5 (sampleEnv 120) drawO1 c m = (c, m, [])
  /\ handleErase 5 (sampleEnv 120) drawO1 c m = (c, m, [])
  /\ handleUndo 5 (sampleEnv 120) drawO1 c m = (c, m, [])
  /\ handleRedo 5 (sampleEnv 120) drawO1 c m = (c, m, [])
  /\ handleClearCanvas 5 (sampleEnv 120) drawO1 c m = (c, m, [])
  /\ handleCursorMove 5 (sampleEnv 120) drawO1 c m = (c, m, [])
  /\ onClose 5 (sampleEnv 120) c m = (c, m, []).
Proof.
  apply (messages_outside_a_room_are_ignored 5 (sampleEnv 120) drawO1
           (connect "uuid-alice" "User-1") (managerOf roomOfAlice)).
  reflexivity.
Defined.

(** X22. A message that parses to an object whose [type] is missing or
    is a primitive value other than the seven names the server knows, and
    a message that parses to a number, a string, a boolean or an array,
    are dropped: nothing changes and nothing is sent, not even an ERROR
    to the sender. A message that does not parse, or that parses to
    [null], changes nothing either, and the sender is sent one ERROR.
    (The fields of a message object are primitive values here.) *)
Theorem unknown_message_type_is_dropped ws e data c m :
  Forall (fun known => get data "type" <> Str known)
         ["JOIN_ROOM"; "DRAW"; "ERASE"; "UNDO"; "REDO"; "CLEAR_CANVAS"; "CURSOR_MOVE"] ->
  onRawMessage ws e (ParsedObject data) c m = (c, m, [])
  /\ onRawMessage ws e ParsedOther c m = (c, m, [])
  /\ onRawMessage ws e ParsedNull c m
     = (c, m, [try_send (net e) ws (ERROR "Server failed to process your message")])
  /\ onRawMessage ws e NotJSON c m
     = (c, m, [try_send (net e) ws (ERROR "Server failed to process your message")]).
Proof.
  intros Hunknown. split; [|repeat split].
  cbn [onRawMessage]. unfold onMessage, strict_eq.
  repeat match goal with
         | H : Forall _ (_ :: _) |- _ => apply Forall_cons in H as [? H]
         end.
  rewrite !bool_decide_eq_false_2 by assumption. reflexivity.
Qed.

Lemma unknown_message_type_is_dropped_witness :
  let c := connectionOfAlice in
  let m := managerOf roomOfAlice in
  onRawMessage 1 (sampleEnv 120) (ParsedObject (literal [("type", Str "PING")])) c m
  = (c, m, [])
  /\ onRawMessage 1 (sampleEnv 120) (ParsedObject (literal [("x", Num 1)])) c m = (c, m, [])
  /\ onRawMessage 1 (sampleEnv 120) ParsedOther c m = (c, m, [])
  /\ onRawMessage 1 (sampleEnv 120) ParsedNull c m
     = (c, m, [Sent 1 (ERROR "Server failed to process your message")])
  /\ onRawMessage 1 (sampleEnv 120) NotJSON c m
     = (c, m, [Sent 1 (ERROR "Server failed to process your message")]).
Proof.
  destruct (unknown_message_type_is_dropped 1 (sampleEnv 120)
              (literal [("type", Str "PING")]) connectionOfAlice (managerOf roomOfAlice))
    as (Hping & Hother & Hnull & Hraw); [repeat constructor; discriminate|].
  destruct (unknown_message_type_is_dropped 1 (sampleEnv 120)
              (literal [("x", Num 1)]) connectionOfAlice (managerOf roomOfAlice))
    as (Hnotype & _); [repeat constructor; discriminate|].
  repeat split; assumption.
Defined.

(** X23. Cursor moves are ephemeral: [handleCursorMove] never changes the
    connection or any room, so nothing of it reaches the log or a later
    joiner, and it calls [send] on exactly the open members of the room
    other than the sender. *)
Theorem cursor_moves_are_not_recorded ws e data c m (a : nat) room :
  currentRoom c = Some a ->
  room_at a m = Some room ->
  (handleCursorMove ws e data c m).1 = (c, m)
  /\ recipients (handleCursorMove ws e data c m).2
     = filter (fun p => isOpen (net e) p /\ p <> ws) (members room)
  /\ Forall (fun ev => exists fields, ev = try_send (net e) (target ev) (Flat fields)
                                      /\ get fields "type" = Str "CURSOR_MOVE"
                                      /\ get fields "x" = get data "x"
                                      /\ get fields "y" = get data "y")
            (handleCursorMove ws e data c m).2.
Proof.
  intros Hc Hroom. unfold handleCursorMove. rewrite Hc, Hroom.
  cbn [fst snd from_option]. rewrite broadcast_excluding.
  split; [reflexivity|]. split; [apply recipients_try_send|].
  apply Forall_fmap, Forall_forall. intros p _. unfold compose, try_send.
  exists (literal [("type", Str "CURSOR_MOVE"); ("userId", Str (userId c));
                   ("x", get data "x"); ("y", get data "y")]).
  split; [|repeat split; reflexivity].
  destruct (sendThrows (net e) p) eqn:Hs; cbn [target]; rewrite Hs; reflexivity.
Qed.

Lemma cursor_moves_are_not_recorded_witness :
  let data := literal [("type", Str "CURSOR_MOVE"); ("x", Num 150); ("y", Num 75)] in
  let out := handleCursorMove 1 (sampleEnv 120) data connectionOfAlice
                              (managerOf roomOfThree) in
  out.1 = (connectionOfAlice, managerOf roomOfThree)
  /\ recipients out.2
     = filter (fun p => isOpen sampleNet p /\ p <> 1) (members roomOfThree)
  /\ Forall (fun ev => exists fields, ev = try_send sampleNet (target ev) (Flat fields)
                                      /\ get fields "type" = Str "CURSOR_MOVE"
                                      /\ get fields "x" = get data "x"
                                      /\ get fields "y" = get data "y")
            out.2.
Proof.
  apply (cursor_moves_are_not_recorded 1 (sampleEnv 120)
           (literal [("type", Str "CURSOR_MOVE"); ("x", Num 150); ("y", Num 75)])
           connectionOfAlice (managerOf roomOfThree) 0 roomOfThree);
    vm_compute; reflexivity.
Defined.

Lemma addOperation_last uuid (now : Z) operation (st : DrawingState.t) :
  DrawingState.validateOperation operation = true ->
  0 < DrawingState.maxHistorySize st ->
  last (DrawingState.drawingHistory (DrawingState.addOperation uuid now operation st).1)
  = Some (DrawingState.enrich uuid now operation).
Proof.
  intros Hv HM. rewrite addOperation_valid by exact Hv. cbn [fst DrawingState.drawingHistory].
  destruct (Nat.ltb_spec (DrawingState.maxHistorySize st)
              (length (DrawingState.drawingHistory st
                       ++ [DrawingState.enrich uuid now operation]))) as [H|H].
  - rewrite length_app in H. cbn [length] in H.
    destruct (DrawingState.drawingHistory st) as [|x h]; [cbn [length] in H; lia|].
    cbn [app tail]. apply last_snoc.
  - apply last_snoc.
Qed.

(** X24. An ERASE message from a participant is recorded whatever it
    carries, even with no coordinates at all: the room's history ends
    with the erase operation built from the message, under the message's
    id or a generated one, the redo buffer is emptied and the room's
    activity time is set; the members, the directory and every other room
    are untouched. *)
Theorem erase_is_always_recorded ws e data c m (a : nat) room :
  currentRoom c = Some a ->
  room_at a m = Some room ->
  userId c <> "" ->
  0 < DrawingState.maxHistorySize (DrawingRoom.drawingState room) ->
  exists room',
    room_at a (handleErase ws e data c m).1.2 = Some room'
    /\ last (DrawingRoom.getDrawingHistory room')
       = Some (DrawingState.enrich (uuid e) (now e) (eraseFields c data))
    /\ DrawingState.redoStack (DrawingRoom.drawingState room') = []
    /\ DrawingRoom.lastActivityAt room' = now e
    /\ DrawingRoom.clients room' = DrawingRoom.clients room
    /\ (forall b, b <> a -> room_at b (handleErase ws e data c m).1.2 = room_at b m)
    /\ RoomManager.rooms (handleErase ws e data c m).1.2 = RoomManager.rooms m
    /\ (handleErase ws e data c m).1.1 = c.
Proof.
  intros Hc Hroom Hid HM. unfold handleErase.
  rewrite Hc, truthy_userId by exact Hid. cbn [fst snd].
  exists (DrawingRoom.recordOperation (uuid e) (now e) (eraseFields c data) room).
  split; [rewrite room_at_update, Hroom; reflexivity|].
  unfold DrawingRoom.recordOperation, DrawingRoom.getDrawingHistory, DrawingState.getHistory.
  cbn [DrawingRoom.set_lastActivityAt DrawingRoom.set_drawingState DrawingRoom.drawingState
       DrawingRoom.lastActivityAt DrawingRoom.clients].
  split; [apply addOperation_last; [apply eraseFields_valid | exact HM]|].
  split; [rewrite addOperation_valid by apply eraseFields_valid; reflexivity|].
  split; [reflexivity|]. split; [reflexivity|]. split; [|split; reflexivity].
  intros b Hb. apply room_at_update_ne. congruence.
Qed.

Lemma erase_is_always_recorded_witness :
  let out := handleErase 1 (sampleEnv 120) (literal [("type", Str "ERASE")])
                         connectionOfAlice (managerOf roomOfAlice) in
  exists room',
    room_at 0 out.1.2 = Some room'
    /\ last (DrawingRoom.getDrawingHistory room')
       = Some (DrawingState.enrich "uuid-7" 120
                 (eraseFields connectionOfAlice (literal [("type", Str "ERASE")])))
    /\ DrawingState.redoStack (DrawingRoom.drawingState room') = []
    /\ DrawingRoom.lastActivityAt room' = 120%Z
    /\ DrawingRoom.clients room' = DrawingRoom.clients roomOfAlice
    /\ (forall b, b <> 0 -> room_at b out.1.2 = room_at b (managerOf roomOfAlice))
    /\ RoomManager.rooms out.1.2 = RoomManager.rooms (managerOf roomOfAlice)
    /\ out.1.1 = connectionOfAlice.
Proof.
  apply (erase_is_always_recorded 1 (sampleEnv 120) (literal [("type", Str "ERASE")])
           connectionOfAlice (managerOf roomOfAlice) 0 roomOfAlice).
  - reflexivity.
  - vm_compute. reflexivity.
  - discriminate.
  - vm_compute. lia.
Defined.

(** X25. A CLEAR_CANVAS message from a participant is not logged as an
    operation: it leaves the room's history, redo buffer and audit trail
    empty and sets the room's activity time; the members, the directory
    and every other room are untouched. *)
Theorem clear_canvas_wipes_the_log ws e data c m (a : nat) room :
  currentRoom c = Some a ->
  room_at a m = Some room ->
  exists room',
    room_at a (handleClearCanvas ws e data c m).1.2 = Some room'
    /\ DrawingRoom.getDrawingHistory room' = []
    /\ DrawingRoom.getOperationHistory room' = []
    /\ DrawingState.redoStack (DrawingRoom.drawingState room') = []
    /\ DrawingRoom.lastActivityAt room' = now e
    /\ DrawingRoom.clients room' = DrawingRoom.clients room
    /\ (forall b, b <> a -> room_at b (handleClearCanvas ws e data c m).1.2 = room_at b m)
    /\ RoomManager.rooms (handleClearCanvas ws e data c m).1.2 = RoomManager.rooms m.
Proof.
  intros Hc Hroom. unfold handleClearCanvas. rewrite Hc. cbn [fst snd].
  exists (DrawingRoom.clearDrawing (now e) room).
  split; [rewrite room_at_update, Hroom; reflexivity|].
  repeat split. intros b Hb. apply room_at_update_ne. congruence.
Qed.

Lemma clear_canvas_wipes_the_log_witness :
  let out := handleClearCanvas 1 (sampleEnv 120) (sampleRedo "uuid-alice")
                               connectionOfAlice (managerOf roomOfThree) in
  exists room',
    room_at 0 out.1.2 = Some room'
    /\ DrawingRoom.getDrawingHistory room' = []
    /\ DrawingRoom.getOperationHistory room' = []
    /\ DrawingState.redoStack (DrawingRoom.drawingState room') = []
    /\ DrawingRoom.lastActivityAt room' = 120%Z
    /\ DrawingRoom.clients room' = DrawingRoom.clients roomOfThree
    /\ (forall b, b <> 0 -> room_at b out.1.2 = room_at b (managerOf roomOfThree))
    /\ RoomManager.rooms out.1.2 = RoomManager.rooms (managerOf roomOfThree).
Proof.
  apply (clear_canvas_wipes_the_log 1 (sampleEnv 120) (sampleRedo "uuid-alice")
           connectionOfAlice (managerOf roomOfThree) 0 roomOfThree).
  - reflexivity.
  - vm_compute. reflexivity.
Defined.



Lemma addClient_outcome (now : Z) ws (userId username : value) room :
  DrawingRoom.addClient now ws userId username room
  = (DrawingRoom.set_userColorIndex (S (DrawingRoom.userColorIndex room)) room,
     Throw "ReferenceError: color is not defined").
Proof. reflexivity. Qed.

Lemma getOrCreateRoom_allocated (now : Z) (roomId : value) m :
  directory_ok m ->
  is_Some (room_at (RoomManager.getOrCreateRoom now roomId m).2
                   (RoomManager.getOrCreateRoom now roomId m).1).
Proof.
  intros (_ & _ & Halloc). unfold RoomManager.getOrCreateRoom, room_at.
  destruct (Map_get roomId (RoomManager.rooms m)) as [a|] eqn:Hget; cbn [fst snd].
  - apply Map_get_Some_elem in Hget. rewrite Forall_forall in Halloc.
    exact (Halloc _ Hget).
  - cbn [RoomManager.heap]. rewrite lookup_insert_eq. eauto.
Qed.

(** X27. What a JOIN_ROOM message gets, as the code stands: the room is
    looked up or created and becomes the connection's current room, the
    connection takes the requested name, and then the join fails inside
    [addClient]; the sender is sent one ERROR and nothing else, nobody is
    told, no connection is registered in any room and no log changes. *)
Theorem join_request_is_answered_with_error ws e data c m :
  get data "type" = Str "JOIN_ROOM" ->
  directory_ok m ->
  (onMessage ws e data c m).2
  = [try_send (net e) ws (ERROR "Server failed to process your message")]
  /\ currentRoom (onMessage ws e data c m).1.1
     = Some (RoomManager.getOrCreateRoom (now e)
               (or_else (get data "roomId") (Str "default")) m).2
  /\ username (onMessage ws e data c m).1.1 = or_else (get data "username") (username c)
  /\ userInfo (onMessage ws e data c m).1.1 = userInfo c
  /\ RoomManager.rooms (onMessage ws e data c m).1.2
     = RoomManager.rooms
         (RoomManager.getOrCreateRoom (now e)
            (or_else (get data "roomId") (Str "default")) m).1
  /\ (forall b,
        members <$> room_at b (onMessage ws e data c m).1.2
        = members <$> room_at b
            (RoomManager.getOrCreateRoom (now e)
               (or_else (get data "roomId") (Str "default")) m).1)
  /\ (forall b,
        DrawingRoom.drawingState <$> room_at b (onMessage ws e data c m).1.2
        = DrawingRoom.drawingState <$> room_at b
            (RoomManager.getOrCreateRoom (now e)
               (or_else (get data "roomId") (Str "default")) m).1).
Proof.
  intros Htype Hok. unfold onMessage, strict_eq. rewrite Htype.
  rewrite bool_decide_eq_true_2 by reflexivity. unfold handleJoinRoom.
  pose proof (getOrCreateRoom_allocated (now e)
                (or_else (get data "roomId") (Str "default")) m Hok) as [room Hroom].
  destruct (RoomManager.getOrCreateRoom (now e)
              (or_else (get data "roomId") (Str "default")) m) as [m1 a].
  cbn [fst snd] in *. rewrite Hroom, addClient_outcome. cbn [fst snd app].
  repeat split.
  - intros b. unfold room_at, RoomManager.update. cbn [RoomManager.heap].
    rewrite lookup_alter. case_decide; [subst b|reflexivity].
    unfold room_at in Hroom. rewrite Hroom. reflexivity.
  - intros b. unfold room_at, RoomManager.update. cbn [RoomManager.heap].
    rewrite lookup_alter. case_decide; [subst b|reflexivity].
    unfold room_at in Hroom. rewrite Hroom. reflexivity.
Qed.

Lemma join_request_is_answered_with_error_witness :
  let out := onMessage 4 (sampleEnv 120) (joinR1 "Dave") (connect "uuid-dave" "User-7")
                       (managerOf roomOfAlice) in
  out.2 = [Sent 4 (ERROR "Server failed to process your message")]
  /\ currentRoom out.1.1 = Some 0
  /\ username out.1.1 = Str "Dave"
  /\ userInfo out.1.1 = None
  /\ (members <$> room_at 0 out.1.2) = Some [1].
Proof.
  destruct (join_request_is_answered_with_error 4 (sampleEnv 120) (joinR1 "Dave")
              (connect "uuid-dave" "User-7") (managerOf roomOfAlice))
    as (Hsent & Hroom & Hname & Hinfo & _ & Hmembers & _).
  - reflexivity.
  - apply directory_ok_managerOf.
  - cbv zeta. rewrite Hsent, Hroom, Hname, Hinfo, (Hmembers 0).
    repeat split; vm_compute; reflexivity.
Defined.




End ServerMore.

(** ** The end of a room *)

Section LastLeave.
Import Server.
Implicit Types (ws p : WebSocket) (e : Env) (c : Connection)
         (m : RoomManager.t) (room : DrawingRoom.t).







End LastLeave.
